(** * Dialogflow CX tool server: normalisation and webhook translation

    A shallow embedding of [main.py]: the methods of [DialogflowCXClient]
    that turn backend responses into plain dictionaries, the guarded
    detection and matching tools, and the webhook response builder and
    request parser, followed by the properties established about them. *)

From Stdlib Require Import String Ascii List ZArith Bool Lia PrimFloat.
From Stdlib Require Import DecimalString.
From ITree Require Import ITree Eq.Eqit Props.Leaf.
Import ListNotations.
Import ITreeNotations.
Local Open Scope string_scope.
Local Open Scope list_scope.
Local Open Scope itree_scope.

Set Implicit Arguments.
Set Warnings "-register-all".

(* ===================================================================== *)
(** * Python values *)
(* ===================================================================== *)

(** The values that travel through the tools are the ones [json.loads]
    produces and the tool transport serialises: [None], [bool], [int],
    [float], [str], [list] and [dict] with string keys.  A [dict] keeps its
    insertion order, so it is an association list; [dict_get] reads the
    first binding of a key and [dict_set] overwrites a key in place or
    appends it, which is what [d[k] = v] does.  A [str] is held as its
    UTF-8 encoding, one [ascii] for each byte. *)
Inductive json : Type :=
| JNull
| JBool (b : bool)
| JInt (z : Z)
| JFloat (f : float)
| JStr (s : string)
| JList (l : list json)
| JDict (d : list (string * json)).

Definition dict := list (string * json).

Module Dict.

Fixpoint get (A : Type) (k : string) (d : list (string * A)) : option A :=
  match d with
  | [] => None
  | (k', v) :: d' => if String.eqb k k' then Some v else get k d'
  end.

(** [k in d] *)
Definition mem (A : Type) (k : string) (d : list (string * A)) : bool :=
  match get k d with Some _ => true | None => false end.

(** [d[k] = v] *)
Fixpoint set (A : Type) (k : string) (v : A) (d : list (string * A))
  : list (string * A) :=
  match d with
  | [] => [(k, v)]
  | (k', v') :: d' =>
      if String.eqb k k' then (k', v) :: d' else (k', v') :: set k v d'
  end.

Definition keys (A : Type) (d : list (string * A)) : list string :=
  map fst d.

End Dict.

(** [type(v).__name__] *)
Definition type_name (v : json) : string :=
  match v with
  | JNull => "NoneType"
  | JBool _ => "bool"
  | JInt _ => "int"
  | JFloat _ => "float"
  | JStr _ => "str"
  | JList _ => "list"
  | JDict _ => "dict"
  end.

(** [needle in hay] on two strings: [needle] occurs at some position. *)
Fixpoint str_contains (needle hay : string) : bool :=
  if String.prefix needle hay then true
  else match hay with
       | EmptyString => false
       | String _ rest => str_contains needle rest
       end.

(** A byte [10xxxxxx] continues the character begun before it. *)
Definition is_continuation (c : ascii) : bool :=
  ((128 <=? nat_of_ascii c) && (nat_of_ascii c <? 192))%nat.

(** The continuation bytes a string starts with, and the characters that
    follow them: a byte that is not a continuation byte begins a
    character, which takes the continuation bytes after it. *)
Fixpoint chars_after (s : string) : string * list string :=
  match s with
  | EmptyString => (EmptyString, [])
  | String c rest =>
      let (continuation, chars) := chars_after rest in
      if is_continuation c then (String c continuation, chars)
      else (EmptyString, String c continuation :: chars)
  end.

(** The one-character strings a [for] loop over a [str] yields: one for
    each code point, made of the bytes that encode it.  (An encoding of a
    [str] never starts with a continuation byte; such bytes would be
    kept as a piece of their own.) *)
Definition str_chars (s : string) : list string :=
  match chars_after s with
  | (EmptyString, chars) => chars
  | (String c continuation, chars) => String c continuation :: chars
  end.

Definition newline : string := String (ascii_of_nat 10) EmptyString.

(** ["\n".join(lines)] *)
Definition join_lines (lines : list string) : string :=
  String.concat newline lines.

(* ===================================================================== *)
(** * Exceptions *)
(* ===================================================================== *)

(** Every handler in the file is [except Exception as e] and only uses
    [str(e)], so a raised exception is carried as that message. *)
Inductive Res (A : Type) : Type :=
| Ok (a : A)
| Raise (msg : string).
Arguments Ok {A} a.
Arguments Raise {A} msg.

Definition bind (A B : Type) (m : Res A) (k : A -> Res B) : Res B :=
  match m with
  | Ok a => k a
  | Raise e => Raise e
  end.

Declare Scope res_scope.
Delimit Scope res_scope with res.
Notation "'let*' x ':=' m 'in' k" := (bind m (fun x => k))
  (at level 10, x name, m at level 100, k at level 200) : res_scope.

(* ===================================================================== *)
(** * Backend response objects *)
(* ===================================================================== *)

(** The objects [dialogflow_cx_v3] hands back are read through a handful
    of attributes only; each record lists the attributes [main.py] reads.
    Where the code tests an attribute for truth ([if msg.text],
    [if match.intent]) the attribute is an [option]: [None] stands for a
    value that tests false, [Some x] for one that tests true. *)

(** A parameter value is probed with [hasattr]: an accessor the object
    does not have is [None].  [tv_str] is [str(value)]. *)
Record TypedValue : Type := {
  string_value : option string;
  number_value : option float;
  bool_value : option bool;
  struct_value : option dict;
  tv_str : string
}.

(** A parameter mapping, in the order [items()] yields it; [None] is an
    absent mapping. *)
Definition Parameters := option (list (string * TypedValue)).

Record Intent : Type := { display_name : string }.

Record Match : Type := {
  match_intent : option Intent;
  match_confidence : float;
  match_parameters : Parameters
}.

Record Page : Type := { page_display_name : string }.

(** [msg.text.text] is the list of lines of a text message. *)
Record Text : Type := { text_text : list string }.

(** [msg_str] is [str(msg)]. *)
Record ResponseMessage : Type := {
  msg_text : option Text;
  msg_payload : option dict;
  msg_str : string
}.

Record QueryResult : Type := {
  response_messages : list ResponseMessage;
  qr_match : Match;
  qr_parameters : Parameters;
  qr_current_page : Page;
  transcript : string
}.

Record DetectIntentResponse : Type := { query_result : QueryResult }.

Record MatchIntentResponse : Type := {
  matches : list Match;
  mr_current_page : Page
}.

(* ===================================================================== *)
(** * Response normalisation ([DialogflowCXClient], pure methods) *)
(* ===================================================================== *)

(** [not parameters]: an absent or an empty mapping. *)
Definition parameters_falsy (parameters : Parameters) : bool :=
  match parameters with
  | None => true
  | Some [] => true
  | Some (_ :: _) => false
  end.

Definition parameters_items (parameters : Parameters)
  : list (string * TypedValue) :=
  match parameters with
  | None => []
  | Some items => items
  end.

(** [_extract_parameters], lines 226-245. *)
Definition _extract_parameters (parameters : Parameters) : dict :=
  if parameters_falsy parameters then []
  else
    fold_left
      (fun param_dict (item : string * TypedValue) =>
         let (key, value) := item in
         match string_value value with
         | Some s => Dict.set key (JStr s) param_dict
         | None =>
         match number_value value with
         | Some n => Dict.set key (JFloat n) param_dict
         | None =>
         match bool_value value with
         | Some b => Dict.set key (JBool b) param_dict
         | None =>
         match struct_value value with
         | Some st => Dict.set key (JDict st) param_dict
         | None => Dict.set key (JStr (tv_str value)) param_dict
         end end end end)
      (parameters_items parameters) [].

(** The message loop of [_process_response], lines 195-201. *)
Definition response_entries (msgs : list ResponseMessage) : list json :=
  fold_left
    (fun messages msg =>
       match msg_text msg with
       | Some t =>
           messages ++ [JDict [("type", JStr "text");
                               ("content", JStr (join_lines (text_text t)))]]
       | None =>
       match msg_payload msg with
       | Some p =>
           let payload_dict := p in
           messages ++ [JDict [("type", JStr "payload");
                               ("content", JDict payload_dict)]]
       | None => messages
       end end)
    msgs [].

(** [_process_response], lines 183-224. *)
Definition _process_response (response : DetectIntentResponse) : dict :=
  let query_result := query_result response in
  let messages := response_entries (response_messages query_result) in
  let has_end_interaction :=
    existsb (fun msg => str_contains "end_interaction" (msg_str msg))
            (response_messages query_result) in
  let intent_info :=
    match match_intent (qr_match query_result) with
    | Some i =>
        JDict [("name", JStr (display_name i));
               ("confidence", JFloat (match_confidence (qr_match query_result)))]
    | None => JNull
    end in
  let parameters := _extract_parameters (qr_parameters query_result) in
  [("messages", JList messages);
   ("intent", intent_info);
   ("parameters", JDict parameters);
   ("current_page", JStr (page_display_name (qr_current_page query_result)));
   ("transcript", JStr (transcript query_result));
   ("end_interaction", JBool has_end_interaction)].

(** The dictionary [DialogflowCXClient.match_intent] returns for a
    backend response, lines 171-181. *)
Definition match_intent_result (response : MatchIntentResponse) : dict :=
  [("matches",
    JList (map (fun m =>
                  JDict [("intent",
                          JStr (match match_intent m with
                                | Some i => display_name i
                                | None => "No intent"
                                end));
                         ("confidence", JFloat (match_confidence m));
                         ("parameters",
                          JDict (_extract_parameters (match_parameters m)))])
               (matches response)));
   ("current_page", JStr (page_display_name (mr_current_page response)))].

(* ===================================================================== *)
(** * External collaborators *)
(* ===================================================================== *)

(** Credentials, the sessions client and the members of the
    [AudioEncoding] enumeration belong to the Google libraries; the code
    only passes them on, so they are opaque handles. *)
Variant Credentials : Type := CredentialsHandle (n : nat).
Variant SessionsClient : Type := SessionsHandle (n : nat).
Variant AudioEncoding : Type := AudioEncodingMember (n : Z).

Record TextInput : Type := { ti_text : string }.

Record InputAudioConfig : Type := {
  audio_encoding : AudioEncoding;
  sample_rate_hertz : Z;
  single_utterance : bool
}.

(** [sample_rate_hertz] is an [int32] field of the message. *)
Definition int32_range (z : Z) : bool :=
  ((-2147483648 <=? z) && (z <=? 2147483647))%Z.

(** [dialogflow_cx_v3.InputAudioConfig(...)], lines 113-117: the
    constructor raises [ValueError] for a sample rate that does not fit
    the field. *)
Definition new_InputAudioConfig (enc : AudioEncoding) (rate : Z)
  (single : bool) : Res InputAudioConfig :=
  if int32_range rate then
    Ok {| audio_encoding := enc;
          sample_rate_hertz := rate;
          single_utterance := single |}
  else
    Raise ("Value out of range: "
           ++ NilZero.string_of_int (Z.to_int rate))%string.

Record AudioInput : Type := {
  config : InputAudioConfig;
  audio : string
}.

Record QueryInput : Type := {
  qi_input : TextInput + AudioInput;
  language_code : string
}.

Record DetectIntentRequest : Type := {
  dir_session : string;
  dir_query_input : QueryInput
}.

Record MatchIntentRequest : Type := {
  mir_session : string;
  mir_query_input : QueryInput
}.

(** What the process asks of its environment.  A call that may raise
    answers with a [Res].  [AudioEncodingNamed] answers with the member
    of [AudioEncoding] of that name; a name that gives no member ends in
    an exception, raised by [getattr] or by the constructor that is
    handed what [getattr] found. *)
Variant envE : Type -> Type :=
| PathExists (path : string) : envE bool
| FromServiceAccountFile (path : string) : envE (Res Credentials)
| NewSessionsClient (credentials : option Credentials)
    : envE (Res SessionsClient)
| Uuid4 : envE string
| AudioEncodingNamed (name : string) : envE (Res AudioEncoding)
| RemoteDetectIntent (c : SessionsClient) (request : DetectIntentRequest)
    : envE (Res DetectIntentResponse)
| RemoteMatchIntent (c : SessionsClient) (request : MatchIntentRequest)
    : envE (Res MatchIntentResponse)
| ReadFile (path : string) : envE (Res string)
| B64Decode (data : string) : envE (Res string).

(** [not s] for an optional string argument. *)
Definition opt_str_falsy (s : option string) : bool :=
  match s with
  | None => true
  | Some EmptyString => true
  | Some (String _ _) => false
  end.

Definition opt_str_value (s : option string) : string :=
  match s with
  | None => EmptyString
  | Some x => x
  end.

Module DialogflowCXClient.

Record t : Type := {
  project_id : string;
  location : string;
  agent_id : string;
  sessions_client : SessionsClient;
  agent_path : string
}.

(** [__init__], lines 20-40. *)
Definition __init__ (project_id location agent_id : string)
  (credentials_path : option string) : itree envE (Res t) :=
  from_file <- (if opt_str_falsy credentials_path then Ret false
                else ITree.trigger (PathExists (opt_str_value credentials_path)));;
  client <- (if from_file : bool then
               credentials <- ITree.trigger
                 (FromServiceAccountFile (opt_str_value credentials_path));;
               match credentials with
               | Ok c => ITree.trigger (NewSessionsClient (Some c))
               | Raise e => Ret (Raise e)
               end
             else ITree.trigger (NewSessionsClient None));;
  match client with
  | Ok sc =>
      Ret (Ok {| project_id := project_id;
                 location := location;
                 agent_id := agent_id;
                 sessions_client := sc;
                 agent_path := ("projects/" ++ project_id
                                ++ "/locations/" ++ location
                                ++ "/agents/" ++ agent_id)%string |})
  | Raise e => Ret (Raise e)
  end.

(** [create_session_path], lines 42-54. *)
Definition create_session_path (self : t) (session_id : option string)
  : itree envE string :=
  session_id <- (if opt_str_falsy session_id then ITree.trigger Uuid4
                 else Ret (opt_str_value session_id));;
  Ret (agent_path self ++ "/sessions/" ++ session_id)%string.

(** [detect_intent], lines 56-87. *)
Definition detect_intent (self : t) (session_id text language_code : string)
  : itree envE (Res dict) :=
  session_path <- create_session_path self (Some session_id);;
  let text_input := {| ti_text := text |} in
  let query_input := {| qi_input := inl text_input;
                        language_code := language_code |} in
  let request := {| dir_session := session_path;
                    dir_query_input := query_input |} in
  response <- ITree.trigger (RemoteDetectIntent (sessions_client self) request);;
  match response with
  | Ok r => Ret (Ok (_process_response r))
  | Raise e => Ret (Raise e)
  end.

(** [detect_intent_audio], lines 89-138. *)
Definition detect_intent_audio (self : t) (session_id audio_content : string)
  (sample_rate_hertz : Z) (audio_encoding language_code : string)
  : itree envE (Res dict) :=
  session_path <- create_session_path self (Some session_id);;
  encoding_enum <- ITree.trigger (AudioEncodingNamed audio_encoding);;
  match encoding_enum with
  | Raise e => Ret (Raise e)
  | Ok enc =>
      match new_InputAudioConfig enc sample_rate_hertz true with
      | Raise e => Ret (Raise e)
      | Ok audio_config =>
          let audio_input := {| config := audio_config;
                                audio := audio_content |} in
          let query_input := {| qi_input := inr audio_input;
                                language_code := language_code |} in
          let request := {| dir_session := session_path;
                            dir_query_input := query_input |} in
          response <- ITree.trigger
            (RemoteDetectIntent (sessions_client self) request);;
          match response with
          | Ok r => Ret (Ok (_process_response r))
          | Raise e => Ret (Raise e)
          end
      end
  end.

(** [match_intent], lines 140-181. *)
Definition match_intent (self : t) (session_id text language_code : string)
  : itree envE (Res dict) :=
  session_path <- create_session_path self (Some session_id);;
  let text_input := {| ti_text := text |} in
  let query_input := {| qi_input := inl text_input;
                        language_code := language_code |} in
  let request := {| mir_session := session_path;
                    mir_query_input := query_input |} in
  response <- ITree.trigger (RemoteMatchIntent (sessions_client self) request);;
  match response with
  | Ok r => Ret (Ok (match_intent_result r))
  | Raise e => Ret (Raise e)
  end.

End DialogflowCXClient.

(* ===================================================================== *)
(** * The tools *)
(* ===================================================================== *)

(** The global [DIALOGFLOW_CLIENT] is read by every detection and matching
    tool and written by [initialize_dialogflow] alone, so the tools take
    its current value and [initialize_dialogflow] also returns the new
    one.  It starts as [None]. *)
Definition ClientHandle := option DialogflowCXClient.t.

Definition DIALOGFLOW_CLIENT_initial : ClientHandle := None.

Definition not_initialized : dict :=
  [("error",
    JStr "Dialogflow CX client not initialized. Call initialize_dialogflow first.")].

Module Tools.

(** [initialize_dialogflow], lines 249-275. *)
Definition initialize_dialogflow (DIALOGFLOW_CLIENT : ClientHandle)
  (project_id location agent_id : string) (credentials_path : option string)
  : itree envE (ClientHandle * string) :=
  created <- DialogflowCXClient.__init__ project_id location agent_id
               credentials_path;;
  match created with
  | Ok client =>
      Ret (Some client,
           ("Dialogflow CX client initialized for agent: " ++ agent_id)%string)
  | Raise e =>
      Ret (DIALOGFLOW_CLIENT,
           ("Error initializing Dialogflow CX client: " ++ e)%string)
  end.

(** [detect_intent], lines 277-309. *)
Definition detect_intent (DIALOGFLOW_CLIENT : ClientHandle) (text : string)
  (session_id : option string) (language_code : string) : itree envE dict :=
  match DIALOGFLOW_CLIENT with
  | None => Ret not_initialized
  | Some client =>
      session_id <- (if opt_str_falsy session_id then ITree.trigger Uuid4
                     else Ret (opt_str_value session_id));;
      response <- DialogflowCXClient.detect_intent client session_id text
                    language_code;;
      match response with
      | Ok response => Ret (Dict.set "session_id" (JStr session_id) response)
      | Raise e => Ret [("error", JStr ("Error detecting intent: " ++ e)%string)]
      end
  end.

(** [detect_intent_from_audio], lines 310-352. *)
Definition detect_intent_from_audio (DIALOGFLOW_CLIENT : ClientHandle)
  (audio_file_path : string) (session_id : option string)
  (sample_rate_hertz : Z) (audio_encoding language_code : string)
  : itree envE dict :=
  match DIALOGFLOW_CLIENT with
  | None => Ret not_initialized
  | Some client =>
      session_id <- (if opt_str_falsy session_id then ITree.trigger Uuid4
                     else Ret (opt_str_value session_id));;
      audio_content <- ITree.trigger (ReadFile audio_file_path);;
      response <- match audio_content with
                  | Ok content =>
                      DialogflowCXClient.detect_intent_audio client session_id
                        content sample_rate_hertz audio_encoding language_code
                  | Raise e => Ret (Raise e)
                  end;;
      match response with
      | Ok response => Ret (Dict.set "session_id" (JStr session_id) response)
      | Raise e =>
          Ret [("error", JStr ("Error detecting intent from audio: " ++ e)%string)]
      end
  end.

(** [detect_intent_from_base64], lines 354-395. *)
Definition detect_intent_from_base64 (DIALOGFLOW_CLIENT : ClientHandle)
  (audio_base64 : string) (session_id : option string)
  (sample_rate_hertz : Z) (audio_encoding language_code : string)
  : itree envE dict :=
  match DIALOGFLOW_CLIENT with
  | None => Ret not_initialized
  | Some client =>
      session_id <- (if opt_str_falsy session_id then ITree.trigger Uuid4
                     else Ret (opt_str_value session_id));;
      audio_content <- ITree.trigger (B64Decode audio_base64);;
      response <- match audio_content with
                  | Ok content =>
                      DialogflowCXClient.detect_intent_audio client session_id
                        content sample_rate_hertz audio_encoding language_code
                  | Raise e => Ret (Raise e)
                  end;;
      match response with
      | Ok response => Ret (Dict.set "session_id" (JStr session_id) response)
      | Raise e =>
          Ret [("error",
                JStr ("Error detecting intent from base64 audio: " ++ e)%string)]
      end
  end.

(** [match_intent], lines 398-430. *)
Definition match_intent (DIALOGFLOW_CLIENT : ClientHandle) (text : string)
  (session_id : option string) (language_code : string) : itree envE dict :=
  match DIALOGFLOW_CLIENT with
  | None => Ret not_initialized
  | Some client =>
      session_id <- (if opt_str_falsy session_id then ITree.trigger Uuid4
                     else Ret (opt_str_value session_id));;
      response <- DialogflowCXClient.match_intent client session_id text
                    language_code;;
      match response with
      | Ok response => Ret (Dict.set "session_id" (JStr session_id) response)
      | Raise e => Ret [("error", JStr ("Error matching intent: " ++ e)%string)]
      end
  end.

(** The next four definitions are the Python operations the two webhook
    tools apply to values of any type.  The messages of the exceptions are
    worded as CPython 3.11 to 3.13 word them. *)

(** [for x in v]: what iterating a value yields, or the [TypeError]. *)
Definition py_iter (v : json) : Res (list json) :=
  match v with
  | JList l => Ok l
  | JStr s => Ok (map JStr (str_chars s))
  | JDict d => Ok (map JStr (Dict.keys d))
  | _ => Raise ("'" ++ type_name v ++ "' object is not iterable")%string
  end.

(** [v.get(key, default)]: only a [dict] has the method. *)
Definition py_get (v : json) (key : string) (default : json) : Res json :=
  match v with
  | JDict d =>
      Ok (match Dict.get key d with Some x => x | None => default end)
  | _ => Raise ("'" ++ type_name v ++ "' object has no attribute 'get'")%string
  end.

(** [key in v] for a string [key]: a key of a [dict], a substring of a
    [str], an element of a [list]. *)
Definition py_in (key : string) (v : json) : Res bool :=
  match v with
  | JDict d => Ok (Dict.mem key d)
  | JStr s => Ok (str_contains key s)
  | JList l =>
      Ok (existsb (fun x => match x with
                            | JStr s => String.eqb key s
                            | _ => false
                            end) l)
  | _ => Raise ("argument of type '" ++ type_name v
                ++ "' is not iterable")%string
  end.

(** [v[key]] for a string [key]. *)
Definition py_getitem (v : json) (key : string) : Res json :=
  match v with
  | JDict d =>
      match Dict.get key d with
      | Some x => Ok x
      | None => Raise ("'" ++ key ++ "'")%string
      end
  | JStr _ => Raise "string indices must be integers, not 'str'"
  | JList _ => Raise "list indices must be integers or slices, not str"
  | _ => Raise ("'" ++ type_name v ++ "' object is not subscriptable")%string
  end.

(** [response["fulfillmentResponse"]["messages"].append(m)] *)
Definition append_message (m : json) (response : dict) : dict :=
  match Dict.get "fulfillmentResponse" response with
  | Some (JDict fr) =>
      match Dict.get "messages" fr with
      | Some (JList l) =>
          Dict.set "fulfillmentResponse"
            (JDict (Dict.set "messages" (JList (l ++ [m])) fr)) response
      | _ => response
      end
  | _ => response
  end.

(** [response["fulfillmentResponse"]["messages"] = []] *)
Definition reset_messages (response : dict) : dict :=
  match Dict.get "fulfillmentResponse" response with
  | Some (JDict fr) =>
      Dict.set "fulfillmentResponse"
        (JDict (Dict.set "messages" (JList []) fr)) response
  | _ => response
  end.

(** The body of the message loop of [create_webhook_response],
    lines 452-466. *)
Definition add_descriptor (response : dict) (msg : json) : dict :=
  match msg with
  | JStr _ =>
      append_message (JDict [("text", JDict [("text", JList [msg])])]) response
  | JDict m =>
      match Dict.get "text" m with
      | Some v =>
          append_message (JDict [("text", JDict [("text", JList [v])])])
            response
      | None =>
      match Dict.get "payload" m with
      | Some v => append_message (JDict [("payload", v)]) response
      | None => response
      end end
  | _ => response
  end.

(** [create_webhook_response], lines 432-484. *)
Definition create_webhook_response (fulfillment_response : dict) : dict :=
  let attempt : Res dict :=
    (let response := [("fulfillmentResponse", JDict [])] in
     let* response :=
       match Dict.get "messages" fulfillment_response with
       | Some msgs =>
           let response := reset_messages response in
           let* items := py_iter msgs in
           Ok (fold_left add_descriptor items response)
       | None => Ok response
       end in
     let response :=
       match Dict.get "parameter_updates" fulfillment_response with
       | Some updates =>
           Dict.set "sessionInfo" (JDict [("parameters", updates)]) response
       | None => response
       end in
     let response :=
       match Dict.get "target_page" fulfillment_response with
       | Some page => Dict.set "targetPage" page response
       | None => response
       end in
     let response :=
       match Dict.get "target_flow" fulfillment_response with
       | Some flow => Dict.set "targetFlow" flow response
       | None => response
       end in
     Ok response)%res in
  match attempt with
  | Ok response => response
  | Raise e =>
      [("error", JStr ("Error creating webhook response: " ++ e)%string)]
  end.

(** The message loop of [parse_webhook_request], lines 509-514. *)
Definition request_entries (items : list json) : Res (list json) :=
  fold_left
    (fun (acc : Res (list json)) (msg : json) =>
       (let* messages := acc in
        let* has_text := py_in "text" msg in
        if has_text : bool then
          let* t := py_getitem msg "text" in
          let* content := py_getitem t "text" in
          Ok (messages ++ [JDict [("type", JStr "text");
                                  ("content", content)]])
        else
          let* has_payload := py_in "payload" msg in
          if has_payload : bool then
            let* content := py_getitem msg "payload" in
            Ok (messages ++ [JDict [("type", JStr "payload");
                                    ("content", content)]])
          else Ok messages)%res)
    items (Ok []).

Section ParseWebhookRequest.

(** [json.loads]: the parsed document, or the decoding error. *)
Variable json_loads : string -> Res json.

(** [parse_webhook_request], lines 486-525. *)
Definition parse_webhook_request (request_json : string) : dict :=
  let attempt : Res dict :=
    (let* request_data := json_loads request_json in
     let* session := py_get request_data "sessionInfo" (JDict []) in
     let* intent := py_get request_data "intentInfo" (JDict []) in
     let* params := py_get session "parameters" (JDict []) in
     let* page_info := py_get request_data "pageInfo" (JDict []) in
     let* current_page := py_get page_info "displayName" (JStr EmptyString) in
     let* prior := py_get request_data "messages" (JList []) in
     let* items := py_iter prior in
     let* messages := request_entries items in
     let* session_id := py_get session "session" (JStr EmptyString) in
     let* intent_name := py_get intent "displayName" (JStr EmptyString) in
     Ok [("session_id", session_id);
         ("intent_name", intent_name);
         ("parameters", params);
         ("current_page", current_page);
         ("messages", JList messages);
         ("raw_request", request_data)])%res in
  match attempt with
  | Ok parsed => parsed
  | Raise e =>
      [("error", JStr ("Error parsing webhook request: " ++ e)%string)]
  end.

End ParseWebhookRequest.

(** [check_end_interaction], lines 527-537. *)
Definition check_end_interaction (response : dict) : json :=
  match Dict.get "end_interaction" response with
  | Some v => v
  | None => JBool false
  end.

End Tools.

(* ===================================================================== *)
(** * Definitions used in the statements and proofs *)
(* ===================================================================== *)

(** The value one pass of the loop of [_extract_parameters] stores. *)
Definition stored_value (value : TypedValue) : json :=
  match string_value value, number_value value,
        bool_value value, struct_value value with
  | Some s, _, _, _ => JStr s
  | None, Some n, _, _ => JFloat n
  | None, None, Some b, _ => JBool b
  | None, None, None, Some st => JDict st
  | None, None, None, None => JStr (tv_str value)
  end.

Definition store_all (items : list (string * TypedValue)) (acc : dict) : dict :=
  fold_left (fun d (item : string * TypedValue) =>
               Dict.set (fst item) (stored_value (snd item)) d) items acc.


(** The [messages] entry of the [fulfillmentResponse] of a built
    response, when there is one. *)
Definition fulfillment_messages (response : dict) : option json :=
  match Dict.get "fulfillmentResponse" response with
  | Some (JDict fr) => Dict.get "messages" fr
  | _ => None
  end.

(** What one descriptor adds to the message list: one message or none. *)
Definition descriptor_entries (msg : json) : list json :=
  match msg with
  | JStr _ => [JDict [("text", JDict [("text", JList [msg])])]]
  | JDict m =>
      match Dict.get "text" m with
      | Some v => [JDict [("text", JDict [("text", JList [v])])]]
      | None =>
      match Dict.get "payload" m with
      | Some v => [JDict [("payload", v)]]
      | None => []
      end end
  | _ => []
  end.

(** The three optional fields [create_webhook_response] adds after the
    messages. *)
Definition with_transitions (fulfillment_response response : dict) : dict :=
  let response :=
    match Dict.get "parameter_updates" fulfillment_response with
    | Some updates =>
        Dict.set "sessionInfo" (JDict [("parameters", updates)]) response
    | None => response
    end in
  let response :=
    match Dict.get "target_page" fulfillment_response with
    | Some page => Dict.set "targetPage" page response
    | None => response
    end in
  match Dict.get "target_flow" fulfillment_response with
  | Some flow => Dict.set "targetFlow" flow response
  | None => response
  end.

(** The messages [create_webhook_response] emits for a list of
    descriptors supplied alone. *)
Definition emitted_messages (descriptors : list json) : list json :=
  match fulfillment_messages
          (Tools.create_webhook_response [("messages", JList descriptors)])
  with
  | Some (JList out) => out
  | _ => []
  end.

(** The fields of its input [create_webhook_response] reads. *)
Definition webhook_input_fields : list string :=
  ["messages"; "parameter_updates"; "target_page"; "target_flow"].

(** The keys a built response can have at its top level. *)
Definition webhook_output_fields : list string :=
  ["fulfillmentResponse"; "sessionInfo"; "targetPage"; "targetFlow"; "error"].

(** [d.get(key, default)] on a dictionary. *)
Definition get_default (key : string) (d : dict) (default : json) : json :=
  match Dict.get key d with
  | Some x => x
  | None => default
  end.

(** What one prior-turn message adds to the list built by
    [parse_webhook_request]: one entry, none, or the exception raised
    while reading it. *)
Definition request_entry (msg : json) : Res (list json) :=
  (let* has_text := Tools.py_in "text" msg in
   if has_text : bool then
     let* t := Tools.py_getitem msg "text" in
     let* content := Tools.py_getitem t "text" in
     Ok [JDict [("type", JStr "text"); ("content", content)]]
   else
     let* has_payload := Tools.py_in "payload" msg in
     if has_payload : bool then
       let* content := Tools.py_getitem msg "payload" in
       Ok [JDict [("type", JStr "payload"); ("content", content)]]
     else Ok [])%res.

Definition request_step (acc : Res (list json)) (msg : json)
  : Res (list json) :=
  (let* messages := acc in
   let* added := request_entry msg in
   Ok (messages ++ added))%res.

(** What one response message adds to the list built by
    [_process_response]. *)
Definition response_entry (msg : ResponseMessage) : list json :=
  match msg_text msg with
  | Some t => [JDict [("type", JStr "text");
                      ("content", JStr (join_lines (text_text t)))]]
  | None =>
  match msg_payload msg with
  | Some p => [JDict [("type", JStr "payload"); ("content", JDict p)]]
  | None => []
  end end.

(** A prior-turn message the parser can read: an object whose [text]
    field, when it has one, is an object with a [text] field. *)
Definition message_ok (msg : json) : Prop :=
  exists m,
    msg = JDict m /\
    (Dict.get "text" m = None \/
     exists t content,
       Dict.get "text" m = Some (JDict t) /\
       Dict.get "text" t = Some content).

(** The keys of a successfully parsed webhook request. *)
Definition parsed_fields : list string :=
  ["session_id"; "intent_name"; "parameters"; "current_page"; "messages";
   "raw_request"].

(** The session path of a client for a session id. *)
Definition session_path_of (self : DialogflowCXClient.t) (session_id : string)
  : string :=
  (DialogflowCXClient.agent_path self ++ "/sessions/" ++ session_id)%string.

(** The client [__init__] assembles around a sessions client. *)
Definition client_with (project_id location agent_id : string)
  (sc : SessionsClient) : DialogflowCXClient.t :=
  {| DialogflowCXClient.project_id := project_id;
     DialogflowCXClient.location := location;
     DialogflowCXClient.agent_id := agent_id;
     DialogflowCXClient.sessions_client := sc;
     DialogflowCXClient.agent_path :=
       ("projects/" ++ project_id ++ "/locations/" ++ location
        ++ "/agents/" ++ agent_id)%string |}.

(** One request for a sessions client, and the client built around the
    answer. *)
Definition build_client (project_id location agent_id : string)
  (credentials : option Credentials)
  : itree envE (Res DialogflowCXClient.t) :=
  Vis (NewSessionsClient credentials)
      (fun answer =>
         Ret (match answer with
              | Ok sc => Ok (client_with project_id location agent_id sc)
              | Raise e => Raise e
              end)).

(** The query a text tool sends. *)
Definition text_query (text language_code : string) : QueryInput :=
  {| qi_input := inl {| ti_text := text |};
     language_code := language_code |}.

(** The query an audio tool sends. *)
Definition audio_query (audio_config : InputAudioConfig)
  (audio_content language_code : string) : QueryInput :=
  {| qi_input := inr {| config := audio_config; audio := audio_content |};
     language_code := language_code |}.

(** The result of a detection tool for the backend's answer. *)
Definition detect_outcome (prefix session_id : string)
  (answer : Res DetectIntentResponse) : dict :=
  match answer with
  | Ok r => _process_response r ++ [("session_id", JStr session_id)]
  | Raise e => [("error", JStr (prefix ++ e)%string)]
  end.

(** The audio detection call once the audio bytes are at hand: look the
    encoding up, build the audio configuration, then ask the backend. *)
Definition audio_exchange (client : DialogflowCXClient.t)
  (prefix session_id : string) (sample_rate_hertz : Z)
  (audio_encoding language_code : string) (content : Res string)
  : itree envE dict :=
  match content with
  | Raise e => Ret [("error", JStr (prefix ++ e)%string)]
  | Ok bytes =>
      Vis (AudioEncodingNamed audio_encoding)
          (fun enc =>
             match enc with
             | Raise e => Ret [("error", JStr (prefix ++ e)%string)]
             | Ok member =>
                 if int32_range sample_rate_hertz then
                   Vis (RemoteDetectIntent
                          (DialogflowCXClient.sessions_client client)
                          {| dir_session := session_path_of client session_id;
                             dir_query_input :=
                               audio_query
                                 {| audio_encoding := member;
                                    sample_rate_hertz := sample_rate_hertz;
                                    single_utterance := true |}
                                 bytes language_code |})
                       (fun answer =>
                          Ret (detect_outcome prefix session_id answer))
                 else
                   Ret [("error",
                         JStr (prefix ++ "Value out of range: "
                               ++ NilZero.string_of_int
                                    (Z.to_int sample_rate_hertz))%string)]
             end)
  end.

(** What [initialize_dialogflow] returns for the environment's answer to
    the request for a sessions client: the new handle and the message. *)
Definition initialize_outcome (handle : ClientHandle)
  (project_id location agent_id : string) (answer : Res SessionsClient)
  : ClientHandle * string :=
  match answer with
  | Ok sc =>
      (Some (client_with project_id location agent_id sc),
       ("Dialogflow CX client initialized for agent: " ++ agent_id)%string)
  | Raise e =>
      (handle, ("Error initializing Dialogflow CX client: " ++ e)%string)
  end.

(** The last step of [initialize_dialogflow]: one request for a sessions
    client, answered with success or failure. *)
Definition initialize_with (handle : ClientHandle)
  (project_id location agent_id : string) (credentials : option Credentials)
  : itree envE (ClientHandle * string) :=
  Vis (NewSessionsClient credentials)
      (fun answer =>
         Ret (initialize_outcome handle project_id location agent_id answer)).

(** A value that is neither a string nor a container: [None], a boolean
    or a number. *)
Definition scalar (v : json) : Prop :=
  v = JNull \/ (exists b, v = JBool b) \/ (exists z, v = JInt z) \/
  (exists f, v = JFloat f).

(** How a message the response builder emits reads once the request
    parser has entered it. *)
Definition read_back (built entry : json) : Prop :=
  (exists v,
     built = JDict [("text", JDict [("text", JList [v])])] /\
     entry = JDict [("type", JStr "text"); ("content", JList [v])]) \/
  (exists p,
     built = JDict [("payload", p)] /\
     entry = JDict [("type", JStr "payload"); ("content", p)]).

(** A string whose bytes are all below 128: each byte is a character. *)
Definition ascii_only (s : string) : Prop :=
  forall c, In c (list_ascii_of_string s) -> nat_of_ascii c < 128.

(** A string that is empty or begins with the first byte of a character,
    as every UTF-8 encoding does. *)
Definition starts_character (s : string) : Prop :=
  match s with
  | EmptyString => True
  | String c _ => is_continuation c = false
  end.

(** One encoded character: a first byte and the continuation bytes that
    belong to it. *)
Definition one_character (piece : string) : Prop :=
  exists c rest,
    piece = String c rest /\
    is_continuation c = false /\
    forall b, In b (list_ascii_of_string rest) -> is_continuation b = true.
(* ===================================================================== *)
(** * Sample runs *)
(* ===================================================================== *)

(** A loader that knows a fixed set of documents and rejects every other
    text the way [json.loads] rejects a text that starts no JSON value. *)
Definition loads_from (documents : list (string * json)) (s : string)
  : Res json :=
  match Dict.get s documents with
  | Some v => Ok v
  | None => Raise "Expecting value: line 1 column 1 (char 0)"
  end.

Definition double_quote : string := String (ascii_of_nat 34) EmptyString.

(** The text of a one-member JSON object, [{"key": value}]. *)
Definition json_object_text (key value : string) : string :=
  ("{" ++ double_quote ++ key ++ double_quote ++ ": " ++ value ++ "}")%string.

(** [{"sessionInfo": {"session": "s1"}}] *)
Definition session_document : string :=
  json_object_text "sessionInfo"
    (json_object_text "session" (double_quote ++ "s1" ++ double_quote)%string).

Definition sample_documents : list (string * json) :=
  [("[]", JList []);
   ("{}", JDict []);
   ("5", JInt 5);
   ("null", JNull);
   (json_object_text "sessionInfo" "5", JDict [("sessionInfo", JInt 5)]);
   (json_object_text "messages" "[]", JDict [("messages", JList [])]);
   (session_document, JDict [("sessionInfo", JDict [("session", JStr "s1")])])].


Definition sample_detect_response : DetectIntentResponse :=
  {| query_result :=
       {| response_messages :=
            [{| msg_text := None;
                msg_payload := Some [("signal", JBool true)];
                msg_str := "end_interaction { }" |}];
          qr_match := {| match_intent := None;
                         match_confidence := 0%float;
                         match_parameters := None |};
          qr_parameters := None;
          qr_current_page := {| page_display_name := "Start" |};
          transcript := EmptyString |} |}.

Definition both_accessors : TypedValue :=
  {| string_value := Some "seven";
     number_value := Some 7%float;
     bool_value := None;
     struct_value := None;
     tv_str := "string_value: seven" |}.


(** A response message that has both a text and a payload. *)
Definition text_and_payload : ResponseMessage :=
  {| msg_text := Some {| text_text := ["Hello"; "there"] |};
     msg_payload := Some [("card", JStr "welcome")];
     msg_str := "text { text: Hello text: there } payload { }" |}.

Definition detect_response_of (msgs : list ResponseMessage)
  : DetectIntentResponse :=
  {| query_result :=
       {| response_messages := msgs;
          qr_match := {| match_intent := None;
                         match_confidence := 0%float;
                         match_parameters := None |};
          qr_parameters := None;
          qr_current_page := {| page_display_name := "Start" |};
          transcript := EmptyString |} |}.

(** A prior-turn message object with both a [text] and a [payload]. *)
Definition text_and_payload_object : dict :=
  [("payload", JDict [("card", JStr "welcome")]);
   ("text", JDict [("text", JList [JStr "Hello"])])].

Definition prior_messages_document : list (string * json) :=
  [("prior", JDict [("messages", JList [JDict text_and_payload_object])])].

Definition sample_client : DialogflowCXClient.t :=
  client_with "proj" "us-central1" "agent-1" (SessionsHandle 0).

(** The string of the single character U+65E5, which UTF-8 encodes in
    the three bytes E6 97 A5. *)
Definition one_wide_character : string :=
  String (ascii_of_nat 230)
    (String (ascii_of_nat 151) (String (ascii_of_nat 165) EmptyString)).
(* ===================================================================== *)
(** * Dictionaries and strings: basic facts *)
(* ===================================================================== *)

Section DictFacts.

Context {A : Type}.
Implicit Types (d : list (string * A)) (k : string) (v : A).

Lemma get_set_same k v d : Dict.get k (Dict.set k v d) = Some v.
Proof.
  induction d as [|[k' v'] d IH]; simpl.
  - now rewrite String.eqb_refl.
  - destruct (String.eqb k k') eqn:E; simpl; rewrite E; auto.
Qed.

Lemma get_set_other k k' v d :
  k <> k' -> Dict.get k' (Dict.set k v d) = Dict.get k' d.
Proof.
  intros Hne. induction d as [|[k0 v0] d IH]; simpl.
  - destruct (String.eqb k' k) eqn:E; auto.
    apply String.eqb_eq in E. congruence.
  - destruct (String.eqb k k0) eqn:E; simpl.
    + apply String.eqb_eq in E. subst k0.
      destruct (String.eqb k' k) eqn:E'; [|reflexivity].
      apply String.eqb_eq in E'. congruence.
    + now rewrite IH.
Qed.

Lemma mem_keys k d : Dict.mem k d = true <-> In k (Dict.keys d).
Proof.
  unfold Dict.mem, Dict.keys.
  induction d as [|[k' v'] d IH]; simpl.
  - split; [discriminate | tauto].
  - destruct (String.eqb k k') eqn:E.
    + apply String.eqb_eq in E. subst. tauto.
    + apply String.eqb_neq in E. rewrite IH. split; [tauto|].
      intros [H|H]; [congruence | assumption].
Qed.

Lemma get_none_keys k d : Dict.get k d = None <-> ~ In k (Dict.keys d).
Proof.
  rewrite <- mem_keys. unfold Dict.mem.
  destruct (Dict.get k d); split; intros H; congruence.
Qed.

Lemma get_In k v d : Dict.get k d = Some v -> In (k, v) d.
Proof.
  induction d as [|[k' v'] d IH]; simpl; [discriminate|].
  destruct (String.eqb k k') eqn:E.
  - apply String.eqb_eq in E. intros [= ->]. subst. now left.
  - auto.
Qed.

Lemma keys_set k v d :
  Dict.keys (Dict.set k v d) =
  if Dict.mem k d then Dict.keys d else Dict.keys d ++ [k].
Proof.
  unfold Dict.mem, Dict.keys.
  induction d as [|[k' v'] d IH]; simpl; [reflexivity|].
  destruct (String.eqb k k') eqn:E; simpl; [reflexivity|].
  rewrite IH. now destruct (Dict.get k d).
Qed.

Lemma in_keys_set k k' v d :
  In k' (Dict.keys (Dict.set k v d)) <-> k' = k \/ In k' (Dict.keys d).
Proof.
  rewrite keys_set. destruct (Dict.mem k d) eqn:E.
  - apply mem_keys in E. split; [tauto|]. intros [->|H]; assumption.
  - rewrite in_app_iff. simpl. intuition.
Qed.

End DictFacts.

Lemma prefix_app (n h : string) :
  String.prefix n h = true <-> exists post, h = (n ++ post)%string.
Proof.
  revert h. induction n as [|c n IH]; intros h; simpl.
  - split; [exists h; reflexivity | destruct h; reflexivity].
  - destruct h as [|c' h].
    + split; [discriminate | intros [post H]; discriminate].
    + simpl. destruct (Ascii.ascii_dec c c') as [->|Hne].
      * rewrite IH. split; intros [post H]; exists post; congruence.
      * split; [discriminate | intros [post H]; congruence].
Qed.

Lemma str_contains_unfold (needle hay : string) :
  str_contains needle hay =
  if String.prefix needle hay then true
  else match hay with
       | EmptyString => false
       | String _ rest => str_contains needle rest
       end.
Proof. destruct hay; reflexivity. Qed.

(** [str_contains] finds exactly the occurrences of the needle. *)
Lemma str_contains_spec (needle hay : string) :
  str_contains needle hay = true <->
  exists pre post, hay = (pre ++ needle ++ post)%string.
Proof.
  induction hay as [|c hay IH]; rewrite str_contains_unfold;
    destruct (String.prefix needle _) eqn:E.
  - apply prefix_app in E. destruct E as [post E].
    split; [intros _; exists EmptyString, post; exact E | reflexivity].
  - split; [discriminate|]. intros (pre & post & H).
    destruct pre; [|discriminate]. simpl in H.
    assert (String.prefix needle EmptyString = true)
      by (apply prefix_app; eauto).
    congruence.
  - apply prefix_app in E. destruct E as [post E].
    split; [intros _; exists EmptyString, post; exact E | reflexivity].
  - rewrite IH. split.
    + intros (pre & post & ->). now exists (String c pre), post.
    + intros (pre & post & H). destruct pre as [|c' pre]; simpl in H.
      * assert (String.prefix needle (String c hay) = true)
          by (apply prefix_app; eauto).
        congruence.
      * injection H as _ H. eauto.
Qed.

(* ===================================================================== *)
(** * Intent-result and match normalisation *)
(* ===================================================================== *)

(** C3. [_process_response] reports [end_interaction] as true exactly when
    the string form of some response message contains the text
    [end_interaction], whatever the kind of that message; the field is
    always a boolean, and a response without messages gives an empty
    message list and [end_interaction] false. *)
Theorem process_response_end_interaction (response : DetectIntentResponse) :
  (Dict.get "end_interaction" (_process_response response) = Some (JBool true)
   <->
   exists msg,
     In msg (response_messages (query_result response)) /\
     exists pre post, msg_str msg = (pre ++ "end_interaction" ++ post)%string)
  /\
  (exists b,
     Dict.get "end_interaction" (_process_response response) = Some (JBool b))
  /\
  (response_messages (query_result response) = [] ->
   Dict.get "messages" (_process_response response) = Some (JList []) /\
   Dict.get "end_interaction" (_process_response response)
   = Some (JBool false)).
Proof.
  unfold _process_response. cbn [Dict.get String.eqb Ascii.eqb Bool.eqb].
  repeat split.
  - intros [= H]. apply existsb_exists in H. destruct H as (msg & Hin & H).
    exists msg. split; [assumption|]. now apply str_contains_spec.
  - intros (msg & Hin & H). do 2 f_equal. apply existsb_exists.
    exists msg. split; [assumption|]. now apply str_contains_spec.
  - eexists. reflexivity.
  - now rewrite H.
  - now rewrite H.
Qed.

Lemma process_response_end_interaction_witness :
  Dict.get "end_interaction" (_process_response sample_detect_response)
  = Some (JBool true).
Proof.
  apply (proj2 (proj1 (process_response_end_interaction
                         sample_detect_response))).
  eexists. split; [left; reflexivity|].
  exists EmptyString, " { }". reflexivity.
Defined.

(** C8. [match_intent] returns one entry per candidate, in the order of
    the backend response; an entry carries the display name of the
    candidate's intent, or ["No intent"] when the candidate has none, the
    candidate's confidence unchanged, and the candidate's parameters as
    [_extract_parameters] gives them. *)
Theorem match_intent_result_entries (response : MatchIntentResponse) :
  exists entries,
    Dict.get "matches" (match_intent_result response) = Some (JList entries) /\
    length entries = length (matches response) /\
    forall i m,
      nth_error (matches response) i = Some m ->
      exists entry,
        nth_error entries i = Some (JDict entry) /\
        (forall it, match_intent m = Some it ->
                    Dict.get "intent" entry = Some (JStr (display_name it))) /\
        (match_intent m = None ->
         Dict.get "intent" entry = Some (JStr "No intent")) /\
        Dict.get "confidence" entry = Some (JFloat (match_confidence m)) /\
        Dict.get "parameters" entry
        = Some (JDict (_extract_parameters (match_parameters m))).
Proof.
  unfold match_intent_result. eexists. split; [reflexivity|].
  split; [apply length_map|].
  intros i m Hi. eexists. split.
  - rewrite nth_error_map, Hi. reflexivity.
  - cbn [Dict.get String.eqb Ascii.eqb Bool.eqb].
    repeat split.
    + now intros it ->.
    + now intros ->.
Qed.

(* ===================================================================== *)
(** * Parameter extraction *)
(* ===================================================================== *)

Lemma fold_left_pointwise (A B : Type) (f g : A -> B -> A) (l : list B) :
  (forall a b, f a b = g a b) ->
  forall a, fold_left f l a = fold_left g l a.
Proof.
  intros Hfg. induction l as [|b l IH]; intros a; simpl.
  - reflexivity.
  - now rewrite Hfg, IH.
Qed.

Lemma extract_parameters_store_all (items : list (string * TypedValue)) :
  _extract_parameters (Some items) = store_all items [].
Proof.
  unfold _extract_parameters, store_all.
  destruct items as [|item items]; [reflexivity|].
  cbn [parameters_falsy parameters_items].
  apply fold_left_pointwise. intros d [key value]. unfold stored_value. simpl.
  destruct (string_value value), (number_value value),
    (bool_value value), (struct_value value); reflexivity.
Qed.

Lemma store_all_in_keys items : forall acc k,
  In k (Dict.keys (store_all items acc)) <->
  In k (Dict.keys acc) \/ In k (Dict.keys items).
Proof.
  unfold store_all.
  induction items as [|[key value] items IH]; intros acc k; simpl.
  - tauto.
  - rewrite IH, in_keys_set. intuition.
Qed.

Lemma store_all_get_other items : forall acc k,
  ~ In k (Dict.keys items) ->
  Dict.get k (store_all items acc) = Dict.get k acc.
Proof.
  unfold store_all.
  induction items as [|[key value] items IH]; intros acc k Hk; simpl in *.
  - reflexivity.
  - rewrite IH by tauto. apply get_set_other. tauto.
Qed.

Lemma store_all_get items : forall acc key value,
  NoDup (Dict.keys items) -> In (key, value) items ->
  Dict.get key (store_all items acc) = Some (stored_value value).
Proof.
  induction items as [|[k v] items IH]; intros acc key value Hnd Hin;
    simpl in *; [contradiction|].
  inversion Hnd as [|? ? Hk Hnd']; subst.
  destruct Hin as [[= -> ->]|Hin].
  - fold (store_all items (Dict.set key (stored_value value) acc)).
    rewrite store_all_get_other by assumption. apply get_set_same.
  - apply (IH _ _ _ Hnd' Hin).
Qed.

Lemma store_all_keys items : forall acc,
  NoDup (Dict.keys acc ++ Dict.keys items) ->
  Dict.keys (store_all items acc) = Dict.keys acc ++ Dict.keys items.
Proof.
  unfold store_all.
  induction items as [|[key value] items IH]; intros acc Hnd; simpl in *.
  - now rewrite app_nil_r.
  - assert (Hfresh : Dict.mem key acc = false).
    { destruct (Dict.mem key acc) eqn:E; [|reflexivity].
      apply mem_keys in E. apply NoDup_remove_2 in Hnd.
      exfalso. apply Hnd. apply in_or_app. now left. }
    assert (Hk : Dict.keys (Dict.set key (stored_value value) acc)
                 = Dict.keys acc ++ [key])
      by (now rewrite keys_set, Hfresh).
    rewrite IH; rewrite Hk, <- app_assoc; [reflexivity | exact Hnd].
Qed.

(** C2. [_extract_parameters] gives every key of its input the value found
    by probing the typed value in the order string, number, boolean,
    structure: the first accessor the value has decides, and a value with
    none of them is stored as its string form.  A value that has the
    string accessor is stored as that string whatever else it has. *)
Theorem extract_parameters_precedence
  (items : list (string * TypedValue)) (key : string) (value : TypedValue) :
  NoDup (Dict.keys items) ->
  In (key, value) items ->
  exists out,
    Dict.get key (_extract_parameters (Some items)) = Some out /\
    (forall s, string_value value = Some s -> out = JStr s) /\
    (forall n, string_value value = None -> number_value value = Some n ->
               out = JFloat n) /\
    (forall b, string_value value = None -> number_value value = None ->
               bool_value value = Some b -> out = JBool b) /\
    (forall st, string_value value = None -> number_value value = None ->
                bool_value value = None -> struct_value value = Some st ->
                out = JDict st) /\
    (string_value value = None -> number_value value = None ->
     bool_value value = None -> struct_value value = None ->
     out = JStr (tv_str value)).
Proof.
  intros Hnd Hin. exists (stored_value value). split.
  - rewrite extract_parameters_store_all. now apply store_all_get.
  - unfold stored_value. repeat split; intros; repeat
      match goal with H : _ = _ |- _ => rewrite H; clear H end; reflexivity.
Qed.

Lemma extract_parameters_precedence_witness :
  exists out,
    Dict.get "n" (_extract_parameters (Some [("n", both_accessors)]))
    = Some out /\ out = JStr "seven".
Proof.
  destruct (extract_parameters_precedence
              [("n", both_accessors)] "n" both_accessors) as (out & Hget & Hs & _).
  - repeat constructor. simpl. tauto.
  - left. reflexivity.
  - exists out. split; [exact Hget | apply Hs; reflexivity].
Defined.

(** C7. [_extract_parameters] returns the empty mapping for an absent and
    for an empty input; for any input its result has exactly the keys of
    the input, and when the input lists each key once the result has one
    entry per input entry, in the same order. *)
Theorem extract_parameters_keys :
  _extract_parameters None = [] /\
  _extract_parameters (Some []) = [] /\
  forall items : list (string * TypedValue),
    (forall k, In k (Dict.keys items) <->
               In k (Dict.keys (_extract_parameters (Some items)))) /\
    (NoDup (Dict.keys items) ->
     Dict.keys (_extract_parameters (Some items)) = Dict.keys items).
Proof.
  repeat split; rewrite extract_parameters_store_all.
  - intros H. apply store_all_in_keys. now right.
  - intros H. apply store_all_in_keys in H. destruct H as [[]|H]; exact H.
  - intros Hnd. now rewrite store_all_keys.
Qed.

Lemma extract_parameters_keys_witness :
  Dict.keys (_extract_parameters
               (Some [("city", both_accessors); ("n", both_accessors)]))
  = ["city"; "n"].
Proof.
  apply (proj2 (proj2 (proj2 extract_parameters_keys)
                  [("city", both_accessors); ("n", both_accessors)])).
  repeat constructor; simpl; intuition discriminate.
Defined.

(* ===================================================================== *)
(** * Webhook response builder *)
(* ===================================================================== *)

Lemma add_descriptor_messages (l : list json) (msg : json) :
  Tools.add_descriptor
    [("fulfillmentResponse", JDict [("messages", JList l)])] msg
  = [("fulfillmentResponse",
      JDict [("messages", JList (l ++ descriptor_entries msg))])].
Proof.
  unfold Tools.add_descriptor, descriptor_entries.
  destruct msg as [| | | | s | |m]; try (now rewrite app_nil_r).
  - reflexivity.
  - destruct (Dict.get "text" m); [reflexivity|].
    destruct (Dict.get "payload" m); [reflexivity|].
    now rewrite app_nil_r.
Qed.

Lemma fold_add_descriptor (items : list json) : forall l,
  fold_left Tools.add_descriptor items
    [("fulfillmentResponse", JDict [("messages", JList l)])]
  = [("fulfillmentResponse",
      JDict [("messages", JList (l ++ flat_map descriptor_entries items))])].
Proof.
  induction items as [|msg items IH]; intros l; simpl.
  - now rewrite app_nil_r.
  - now rewrite add_descriptor_messages, IH, app_assoc.
Qed.

(** [create_webhook_response] in closed form. *)
Lemma create_webhook_response_unfold (fr : dict) :
  Tools.create_webhook_response fr =
  match Dict.get "messages" fr with
  | None => with_transitions fr [("fulfillmentResponse", JDict [])]
  | Some v =>
      match Tools.py_iter v with
      | Ok items =>
          with_transitions fr
            [("fulfillmentResponse",
              JDict [("messages", JList (flat_map descriptor_entries items))])]
      | Raise e =>
          [("error", JStr ("Error creating webhook response: " ++ e)%string)]
      end
  end.
Proof.
  unfold Tools.create_webhook_response, with_transitions.
  destruct (Dict.get "messages" fr) as [v|]; [|reflexivity].
  destruct (Tools.py_iter v) as [items|e]; [|reflexivity].
  cbn [bind]. change (Tools.reset_messages [("fulfillmentResponse", JDict [])])
    with [("fulfillmentResponse", JDict [("messages", JList [])])].
  now rewrite fold_add_descriptor.
Qed.

Lemma with_transitions_fulfillment (fr response : dict) :
  Dict.get "fulfillmentResponse" (with_transitions fr response)
  = Dict.get "fulfillmentResponse" response.
Proof.
  unfold with_transitions.
  destruct (Dict.get "parameter_updates" fr),
    (Dict.get "target_page" fr), (Dict.get "target_flow" fr);
    repeat (rewrite get_set_other by discriminate); reflexivity.
Qed.

Lemma with_transitions_keys (fr response : dict) (k : string) :
  In k (Dict.keys (with_transitions fr response)) ->
  In k (Dict.keys response) \/
  In k ["sessionInfo"; "targetPage"; "targetFlow"].
Proof.
  unfold with_transitions.
  destruct (Dict.get "parameter_updates" fr),
    (Dict.get "target_page" fr), (Dict.get "target_flow" fr);
    repeat (rewrite in_keys_set); simpl; intuition.
Qed.

Lemma emitted_messages_flat (descriptors : list json) :
  emitted_messages descriptors = flat_map descriptor_entries descriptors.
Proof.
  unfold emitted_messages. rewrite create_webhook_response_unfold.
  reflexivity.
Qed.

(** C1, amended. When the input has no [messages] field the
    [fulfillmentResponse] of the result is empty, and the empty input gives
    exactly [{"fulfillmentResponse": {}}].  The [messages] key is present
    exactly when a [messages] field was supplied and its value can be
    iterated; a supplied empty list is emitted as an empty list. *)
Theorem create_webhook_response_messages_key (fr : dict) :
  (Dict.get "messages" fr = None ->
   Dict.get "fulfillmentResponse" (Tools.create_webhook_response fr)
   = Some (JDict []) /\
   fulfillment_messages (Tools.create_webhook_response fr) = None)
  /\
  Tools.create_webhook_response [] = [("fulfillmentResponse", JDict [])]
  /\
  ((exists out,
      fulfillment_messages (Tools.create_webhook_response fr) = Some out)
   <->
   (exists v items,
      Dict.get "messages" fr = Some v /\ Tools.py_iter v = Ok items))
  /\
  (Dict.get "messages" fr = Some (JList []) ->
   fulfillment_messages (Tools.create_webhook_response fr)
   = Some (JList [])).
Proof.
  unfold fulfillment_messages. rewrite create_webhook_response_unfold.
  split; [|split; [reflexivity|split]].
  - intros ->. now rewrite with_transitions_fulfillment.
  - destruct (Dict.get "messages" fr) as [v|].
    + destruct (Tools.py_iter v) as [items|e] eqn:Hiter.
      * rewrite with_transitions_fulfillment. simpl.
        split; [intros _; now exists v, items | intros _; eauto].
      * simpl. split; [intros [out [=]]|].
        intros (v' & items & [= <-] & H). congruence.
    + rewrite with_transitions_fulfillment. simpl.
      split; [intros [out [=]] | intros (? & ? & [=] & _)].
  - intros ->. simpl. now rewrite with_transitions_fulfillment.
Qed.

Lemma create_webhook_response_messages_key_witness :
  fulfillment_messages
    (Tools.create_webhook_response
       [("messages", JList []); ("target_page", JStr "Checkout")])
  = Some (JList []).
Proof.
  apply (proj2 (proj2 (proj2 (create_webhook_response_messages_key
           [("messages", JList []); ("target_page", JStr "Checkout")])))).
  reflexivity.
Defined.

(** C1 as stated fails: a supplied empty [messages] list is emitted as an
    empty list, with no descriptor iterated. *)
Lemma create_webhook_response_emits_empty_list :
  Tools.create_webhook_response [("messages", JList [])]
  = [("fulfillmentResponse", JDict [("messages", JList [])])].
Proof. reflexivity. Qed.

(** C4. A descriptor that is a mapping with a [text] field is emitted as
    [{"text": {"text": [value]}}] with the field's value as the single
    element, whatever that value is (a list stays a list inside the list),
    and a descriptor that is a string is emitted the same way with the
    string itself; the messages of the descriptors before and after it are
    unchanged around it. *)
Theorem create_webhook_response_text_descriptor
  (fr : dict) (pre post : list json) (msg value : json) :
  Dict.get "messages" fr = Some (JList (pre ++ msg :: post)) ->
  (exists m, msg = JDict m /\ Dict.get "text" m = Some value) \/
  (exists s, msg = JStr s /\ value = JStr s) ->
  fulfillment_messages (Tools.create_webhook_response fr)
  = Some (JList (emitted_messages pre
                 ++ JDict [("text", JDict [("text", JList [value])])]
                 :: emitted_messages post)).
Proof.
  intros Hmsgs Hshape. unfold fulfillment_messages.
  rewrite create_webhook_response_unfold, Hmsgs. cbn [Tools.py_iter].
  rewrite with_transitions_fulfillment, !emitted_messages_flat.
  cbn [Dict.get String.eqb Ascii.eqb Bool.eqb].
  rewrite flat_map_app. do 3 f_equal. simpl. f_equal.
  destruct Hshape as [(m & -> & Hv)|(s & -> & ->)]; simpl.
  - now rewrite Hv.
  - reflexivity.
Qed.

Lemma create_webhook_response_text_descriptor_witness :
  fulfillment_messages
    (Tools.create_webhook_response
       [("messages",
         JList [JStr "hello";
                JDict [("text", JList [JStr "a"; JStr "b"]);
                       ("payload", JNull)]])])
  = Some (JList [JDict [("text", JDict [("text", JList [JStr "hello"])])];
                 JDict [("text",
                         JDict [("text",
                                 JList [JList [JStr "a"; JStr "b"]])])]]).
Proof.
  apply (@create_webhook_response_text_descriptor
           [("messages",
             JList [JStr "hello";
                    JDict [("text", JList [JStr "a"; JStr "b"]);
                           ("payload", JNull)]])]
           [JStr "hello"] []
           (JDict [("text", JList [JStr "a"; JStr "b"]); ("payload", JNull)])
           (JList [JStr "a"; JStr "b"])).
  - reflexivity.
  - left. eexists. split; reflexivity.
Defined.

(** The example of the specification: one string descriptor. *)
Example create_webhook_response_hello :
  Tools.create_webhook_response [("messages", JList [JStr "hello"])]
  = [("fulfillmentResponse",
      JDict [("messages",
              JList [JDict [("text", JDict [("text", JList [JStr "hello"])])]])])].
Proof. reflexivity. Qed.

(** C10. Two inputs that agree on [messages], [parameter_updates],
    [target_page] and [target_flow] (present with the same value, or absent
    in both) give the same response, and the top-level keys of a response
    come from a fixed list, so no other input key reaches the output. *)
Theorem create_webhook_response_reads_four_fields (a b : dict) :
  (forall k, In k webhook_input_fields -> Dict.get k a = Dict.get k b) ->
  Tools.create_webhook_response a = Tools.create_webhook_response b /\
  (forall k, In k (Dict.keys (Tools.create_webhook_response a)) ->
             In k webhook_output_fields).
Proof.
  intros Hagree. split.
  - unfold Tools.create_webhook_response.
    rewrite (Hagree "messages"), (Hagree "parameter_updates"),
      (Hagree "target_page"), (Hagree "target_flow");
      [reflexivity | simpl; tauto ..].
  - intros k. rewrite create_webhook_response_unfold.
    unfold webhook_output_fields.
    destruct (Dict.get "messages" a) as [v|];
      [destruct (Tools.py_iter v) as [items|e]|].
    + intros H. apply with_transitions_keys in H. simpl in *. tauto.
    + simpl. tauto.
    + intros H. apply with_transitions_keys in H. simpl in *. tauto.
Qed.

Lemma create_webhook_response_reads_four_fields_witness :
  Tools.create_webhook_response
    [("messages", JList [JStr "hi"]); ("secret", JStr "token")]
  = Tools.create_webhook_response
      [("debug", JBool true); ("messages", JList [JStr "hi"])].
Proof.
  apply (create_webhook_response_reads_four_fields
           [("messages", JList [JStr "hi"]); ("secret", JStr "token")]
           [("debug", JBool true); ("messages", JList [JStr "hi"])]).
  intros k Hk. simpl in Hk.
  destruct Hk as [<-|[<-|[<-|[<-|[]]]]]; reflexivity.
Defined.

(* ===================================================================== *)
(** * Webhook request parser *)
(* ===================================================================== *)

Lemma request_step_eq (items : list json) (acc : Res (list json)) :
  fold_left
    (fun (acc : Res (list json)) (msg : json) =>
       (let* messages := acc in
        let* has_text := Tools.py_in "text" msg in
        if has_text : bool then
          let* t := Tools.py_getitem msg "text" in
          let* content := Tools.py_getitem t "text" in
          Ok (messages ++ [JDict [("type", JStr "text");
                                  ("content", content)]])
        else
          let* has_payload := Tools.py_in "payload" msg in
          if has_payload : bool then
            let* content := Tools.py_getitem msg "payload" in
            Ok (messages ++ [JDict [("type", JStr "payload");
                                    ("content", content)]])
          else Ok messages)%res)
    items acc
  = fold_left request_step items acc.
Proof.
  apply fold_left_pointwise. intros [messages|e] msg; [|reflexivity].
  unfold request_step, request_entry. cbn [bind].
  destruct (Tools.py_in "text" msg) as [[|]|e]; cbn [bind]; try reflexivity.
  - destruct (Tools.py_getitem msg "text") as [t|e]; cbn [bind];
      [|reflexivity].
    destruct (Tools.py_getitem t "text"); reflexivity.
  - destruct (Tools.py_in "payload" msg) as [[|]|e]; cbn [bind];
      try reflexivity.
    + destruct (Tools.py_getitem msg "payload"); reflexivity.
    + now rewrite app_nil_r.
Qed.

Lemma request_entries_fold (items : list json) :
  Tools.request_entries items = fold_left request_step items (Ok []).
Proof. apply request_step_eq. Qed.

Lemma request_step_raise (items : list json) (e : string) :
  fold_left request_step items (Raise e) = Raise e.
Proof. induction items as [|msg items IH]; simpl; auto. Qed.

Lemma request_step_ok (acc : list json) (msg : json) :
  request_step (Ok acc) msg =
  match request_entry msg with
  | Ok added => Ok (acc ++ added)
  | Raise e => Raise e
  end.
Proof. unfold request_step. cbn [bind]. now destruct (request_entry msg). Qed.

Lemma request_step_from (items : list json) : forall acc,
  fold_left request_step items (Ok acc) =
  match fold_left request_step items (Ok []) with
  | Ok rest => Ok (acc ++ rest)
  | Raise e => Raise e
  end.
Proof.
  induction items as [|msg items IH]; intros acc; cbn [fold_left].
  - now rewrite app_nil_r.
  - rewrite !request_step_ok.
    destruct (request_entry msg) as [added|e].
    + rewrite (IH (acc ++ added)), (IH ([] ++ added)). simpl.
      destruct (fold_left request_step items (Ok [])); [|reflexivity].
      now rewrite app_assoc.
    + now rewrite request_step_raise.
Qed.

Lemma request_entries_cons (msg : json) (items : list json) :
  Tools.request_entries (msg :: items) =
  match request_entry msg, Tools.request_entries items with
  | Ok added, Ok rest => Ok (added ++ rest)
  | Raise e, _ => Raise e
  | Ok _, Raise e => Raise e
  end.
Proof.
  rewrite !request_entries_fold. cbn [fold_left]. rewrite request_step_ok.
  destruct (request_entry msg) as [added|e].
  - simpl. apply request_step_from.
  - apply request_step_raise.
Qed.

Lemma request_entries_app (pre post a b : list json) :
  Tools.request_entries pre = Ok a ->
  Tools.request_entries post = Ok b ->
  Tools.request_entries (pre ++ post) = Ok (a ++ b).
Proof.
  revert a. induction pre as [|msg pre IH]; intros a Hpre Hpost.
  - injection Hpre as <-. exact Hpost.
  - simpl. rewrite request_entries_cons in *.
    destruct (request_entry msg) as [added|e]; [|discriminate].
    destruct (Tools.request_entries pre) as [rest|e]; [|discriminate].
    injection Hpre as <-. rewrite (IH rest eq_refl Hpost).
    now rewrite app_assoc.
Qed.

Lemma message_ok_entry (msg : json) :
  message_ok msg -> exists added, request_entry msg = Ok added.
Proof.
  intros (m & -> & Hshape). unfold request_entry.
  cbn [Tools.py_in bind]. unfold Dict.mem.
  destruct Hshape as [Hno|(t & content & Ht & Hc)].
  - rewrite Hno. cbn [Tools.py_in bind].
    destruct (Dict.get "payload" m) as [p|] eqn:Hp;
      cbn [Tools.py_getitem bind]; rewrite ?Hp; cbn [bind]; eauto.
  - rewrite Ht. cbn [Tools.py_getitem bind]. rewrite ?Ht.
    cbn [bind Tools.py_getitem]. rewrite Hc. cbn [bind]. eauto.
Qed.

Lemma message_ok_entries (msgs : list json) :
  Forall message_ok msgs ->
  exists entries, Tools.request_entries msgs = Ok entries.
Proof.
  induction 1 as [|msg msgs Hmsg _ [rest IH]].
  - now exists [].
  - destruct (message_ok_entry Hmsg) as [added Hadded].
    exists (added ++ rest). now rewrite request_entries_cons, Hadded, IH.
Qed.

Lemma py_get_dict (d : dict) (key : string) (default : json) :
  Tools.py_get (JDict d) key default = Ok (get_default key d default).
Proof. reflexivity. Qed.

(** The parser on a document whose top-level fields have the expected
    kinds. *)
Lemma parse_webhook_request_object
  (json_loads : string -> Res json) (request_json : string)
  (d session intent page_info : dict) (msgs entries : list json) :
  json_loads request_json = Ok (JDict d) ->
  get_default "sessionInfo" d (JDict []) = JDict session ->
  get_default "intentInfo" d (JDict []) = JDict intent ->
  get_default "pageInfo" d (JDict []) = JDict page_info ->
  get_default "messages" d (JList []) = JList msgs ->
  Tools.request_entries msgs = Ok entries ->
  Tools.parse_webhook_request json_loads request_json =
  [("session_id", get_default "session" session (JStr EmptyString));
   ("intent_name", get_default "displayName" intent (JStr EmptyString));
   ("parameters", get_default "parameters" session (JDict []));
   ("current_page", get_default "displayName" page_info (JStr EmptyString));
   ("messages", JList entries);
   ("raw_request", JDict d)].
Proof.
  intros Hload Hs Hi Hp Hm He. unfold Tools.parse_webhook_request.
  rewrite Hload. cbn [bind]. rewrite !py_get_dict, Hs, Hi, Hp, Hm.
  cbn [bind]. rewrite !py_get_dict. cbn [bind Tools.py_iter].
  rewrite He. reflexivity.
Qed.

(** C5, amended. A text [json.loads] rejects gives a result whose only
    field is [error], carrying the decoder's message.  For every text the
    parser returns a dictionary: either such an error result or one with
    the six parsed fields.  A valid document gives the parsed fields, with
    their defaults and the whole document as [raw_request], when it is an
    object whose [sessionInfo], [intentInfo] and [pageInfo] are objects
    where present and whose [messages], where present, is a list of
    readable messages. *)
Theorem parse_webhook_request_outcomes
  (json_loads : string -> Res json) (request_json : string) :
  (forall e,
     json_loads request_json = Raise e ->
     Tools.parse_webhook_request json_loads request_json
     = [("error", JStr ("Error parsing webhook request: " ++ e)%string)])
  /\
  ((exists msg,
      Tools.parse_webhook_request json_loads request_json
      = [("error", JStr msg)]) \/
   Dict.keys (Tools.parse_webhook_request json_loads request_json)
   = parsed_fields)
  /\
  (forall d session intent page_info msgs,
     json_loads request_json = Ok (JDict d) ->
     get_default "sessionInfo" d (JDict []) = JDict session ->
     get_default "intentInfo" d (JDict []) = JDict intent ->
     get_default "pageInfo" d (JDict []) = JDict page_info ->
     get_default "messages" d (JList []) = JList msgs ->
     Forall message_ok msgs ->
     exists entries,
       Tools.request_entries msgs = Ok entries /\
       Tools.parse_webhook_request json_loads request_json =
       [("session_id", get_default "session" session (JStr EmptyString));
        ("intent_name", get_default "displayName" intent (JStr EmptyString));
        ("parameters", get_default "parameters" session (JDict []));
        ("current_page",
         get_default "displayName" page_info (JStr EmptyString));
        ("messages", JList entries);
        ("raw_request", JDict d)]).
Proof.
  split; [|split].
  - intros e He. unfold Tools.parse_webhook_request. now rewrite He.
  - unfold Tools.parse_webhook_request.
    repeat match goal with
           | |- context [bind ?m _] =>
               destruct m; cbn [bind]; [|left; eexists; reflexivity]
           end.
    right. reflexivity.
  - intros d session intent page_info msgs Hload Hs Hi Hp Hm Hok.
    destruct (message_ok_entries Hok) as [entries He].
    exists entries. split; [exact He|].
    now apply (parse_webhook_request_object json_loads request_json
                 Hload Hs Hi Hp Hm He).
Qed.

Lemma parse_webhook_request_outcomes_witness :
  Tools.parse_webhook_request (loads_from sample_documents) "not json"
  = [("error",
      JStr "Error parsing webhook request: Expecting value: line 1 column 1 (char 0)")]
  /\
  exists entries,
    Tools.request_entries [] = Ok entries /\
    Tools.parse_webhook_request (loads_from sample_documents) session_document
    = [("session_id", JStr "s1");
       ("intent_name", JStr EmptyString);
       ("parameters", JDict []);
       ("current_page", JStr EmptyString);
       ("messages", JList entries);
       ("raw_request",
        JDict [("sessionInfo", JDict [("session", JStr "s1")])])].
Proof.
  split.
  - apply (proj1 (parse_webhook_request_outcomes
                    (loads_from sample_documents) "not json")).
    reflexivity.
  - apply (proj2 (proj2 (parse_webhook_request_outcomes
                           (loads_from sample_documents) session_document))
             [("sessionInfo", JDict [("session", JStr "s1")])]
             [("session", JStr "s1")] [] [] []);
      try reflexivity.
    constructor.
Defined.

(** C5 as stated fails: the text [[]] is valid JSON, yet the parser
    answers with an error result and none of the parsed fields. *)
Lemma parse_webhook_request_valid_json_error :
  loads_from sample_documents "[]" = Ok (JList []) /\
  Tools.parse_webhook_request (loads_from sample_documents) "[]"
  = [("error",
      JStr "Error parsing webhook request: 'list' object has no attribute 'get'")].
Proof. split; reflexivity. Qed.

(* ===================================================================== *)
(** * Order of the text and payload branches *)
(* ===================================================================== *)

Lemma response_entries_from (msgs : list ResponseMessage) : forall acc,
  fold_left
    (fun messages msg =>
       match msg_text msg with
       | Some t =>
           messages ++ [JDict [("type", JStr "text");
                               ("content", JStr (join_lines (text_text t)))]]
       | None =>
       match msg_payload msg with
       | Some p =>
           let payload_dict := p in
           messages ++ [JDict [("type", JStr "payload");
                               ("content", JDict payload_dict)]]
       | None => messages
       end end)
    msgs acc
  = acc ++ flat_map response_entry msgs.
Proof.
  induction msgs as [|msg msgs IH]; intros acc; cbn [fold_left flat_map].
  - now rewrite app_nil_r.
  - rewrite IH. unfold response_entry at 2.
    destruct (msg_text msg); [now rewrite <- app_assoc|].
    destruct (msg_payload msg); [now rewrite <- app_assoc|].
    reflexivity.
Qed.

Lemma response_entries_flat (msgs : list ResponseMessage) :
  response_entries msgs = flat_map response_entry msgs.
Proof. unfold response_entries. now rewrite response_entries_from. Qed.

(** C9. In [_process_response] a message whose text tests true is
    entered as a text entry whatever its payload, and in
    [parse_webhook_request] a message object with a [text] object is
    entered as a text entry whether or not it also has a [payload]; the
    entries of the messages around it are unchanged.  In both loops a
    payload entry is produced only for a message that fails the text
    test. *)
Theorem text_branch_checked_first :
  (forall response pre msg post t,
     response_messages (query_result response) = pre ++ msg :: post ->
     msg_text msg = Some t ->
     Dict.get "messages" (_process_response response)
     = Some (JList (response_entries pre
                    ++ JDict [("type", JStr "text");
                              ("content", JStr (join_lines (text_text t)))]
                    :: response_entries post)))
  /\
  (forall (json_loads : string -> Res json) request_json
          d session intent page_info pre m post t content a b,
     json_loads request_json = Ok (JDict d) ->
     get_default "sessionInfo" d (JDict []) = JDict session ->
     get_default "intentInfo" d (JDict []) = JDict intent ->
     get_default "pageInfo" d (JDict []) = JDict page_info ->
     Dict.get "messages" d = Some (JList (pre ++ JDict m :: post)) ->
     Dict.get "text" m = Some (JDict t) ->
     Dict.get "text" t = Some content ->
     Tools.request_entries pre = Ok a ->
     Tools.request_entries post = Ok b ->
     Dict.get "messages" (Tools.parse_webhook_request json_loads request_json)
     = Some (JList (a ++ JDict [("type", JStr "text"); ("content", content)]
                    :: b)))
  /\
  (forall msg content,
     response_entries [msg]
     = [JDict [("type", JStr "payload"); ("content", content)]] ->
     msg_text msg = None)
  /\
  (forall msg content,
     Tools.request_entries [msg]
     = Ok [JDict [("type", JStr "payload"); ("content", content)]] ->
     Tools.py_in "text" msg = Ok false).
Proof.
  split; [|split; [|split]].
  - intros response pre msg post t Hmsgs Ht.
    unfold _process_response. cbn [Dict.get String.eqb Ascii.eqb Bool.eqb].
    rewrite Hmsgs, !response_entries_flat, flat_map_app.
    cbn [flat_map]. unfold response_entry at 2. now rewrite Ht.
  - intros json_loads request_json d session intent page_info pre m post
      t content a b Hload Hs Hi Hp Hm Ht Hc Ha Hb.
    assert (Hentry : request_entry (JDict m)
                     = Ok [JDict [("type", JStr "text"); ("content", content)]]).
    { unfold request_entry. cbn [Tools.py_in bind]. unfold Dict.mem.
      rewrite Ht. cbn [Tools.py_getitem bind]. rewrite ?Ht.
      cbn [bind Tools.py_getitem]. now rewrite Hc. }
    assert (Hall : Tools.request_entries (pre ++ JDict m :: post)
                   = Ok (a ++ JDict [("type", JStr "text");
                                     ("content", content)] :: b)).
    { apply request_entries_app; [exact Ha|].
      now rewrite request_entries_cons, Hentry, Hb. }
    assert (Hmsgs : get_default "messages" d (JList [])
                    = JList (pre ++ JDict m :: post))
      by (unfold get_default; now rewrite Hm).
    now rewrite (parse_webhook_request_object json_loads request_json
                   Hload Hs Hi Hp Hmsgs Hall).
  - intros msg content. rewrite response_entries_flat. cbn [flat_map].
    rewrite app_nil_r. unfold response_entry.
    destruct (msg_text msg); [discriminate | reflexivity].
  - intros msg content. rewrite request_entries_cons.
    change (Tools.request_entries []) with (@Ok (list json) []).
    unfold request_entry.
    destruct (Tools.py_in "text" msg) as [[|]|e]; cbn [bind];
      [|reflexivity|discriminate].
    destruct (Tools.py_getitem msg "text") as [t|e]; cbn [bind];
      [|discriminate].
    destruct (Tools.py_getitem t "text"); cbn [bind]; discriminate.
Qed.

Lemma text_branch_checked_first_witness :
  Dict.get "messages"
    (_process_response (detect_response_of [text_and_payload]))
  = Some (JList [JDict [("type", JStr "text");
                        ("content", JStr (join_lines ["Hello"; "there"]))]])
  /\
  Dict.get "messages"
    (Tools.parse_webhook_request (loads_from prior_messages_document) "prior")
  = Some (JList [JDict [("type", JStr "text");
                        ("content", JList [JStr "Hello"])]]).
Proof.
  split.
  - apply (proj1 text_branch_checked_first
             (detect_response_of [text_and_payload])
             [] text_and_payload [] {| text_text := ["Hello"; "there"] |});
      reflexivity.
  - apply (proj1 (proj2 text_branch_checked_first)
             (loads_from prior_messages_document) "prior"
             [("messages", JList [JDict text_and_payload_object])]
             [] [] [] [] text_and_payload_object []
             [("text", JList [JStr "Hello"])] (JList [JStr "Hello"]) [] []);
      reflexivity.
Defined.

(* ===================================================================== *)
(** * The client handle *)
(* ===================================================================== *)

(** [initialize_dialogflow] replaces the handle only when the client was
    built: whatever the environment answers, it ends either with the
    handle it was given and an error message, or with a new client and the
    success message. *)
Lemma initialize_dialogflow_handle
  (handle handle' : ClientHandle) (project_id location agent_id : string)
  (credentials_path : option string) (message : string) :
  Leaf (handle', message)
    (Tools.initialize_dialogflow handle project_id location agent_id
       credentials_path) ->
  (handle' = handle /\
   exists e,
     message = ("Error initializing Dialogflow CX client: " ++ e)%string) \/
  (exists client,
     handle' = Some client /\
     message
     = ("Dialogflow CX client initialized for agent: " ++ agent_id)%string).
Proof.
  unfold Tools.initialize_dialogflow. intros H.
  apply Leaf_bind_inv in H. destruct H as ([client|e] & _ & H);
    apply Leaf_Ret_inv in H; injection H as -> ->.
  - right. now exists client.
  - left. split; [reflexivity | now exists e].
Qed.

(** C6. With the client handle unset, as it is until
    [initialize_dialogflow] has built a client, each detection and
    matching tool returns at once, asking nothing of its environment, the
    dictionary whose only field is [error]. *)
Theorem tools_uninitialized
  (text audio_file_path audio_base64 : string) (session_id : option string)
  (sample_rate_hertz : Z) (audio_encoding language_code : string) :
  DIALOGFLOW_CLIENT_initial = None /\
  Tools.detect_intent None text session_id language_code
  = Ret not_initialized /\
  Tools.detect_intent_from_audio None audio_file_path session_id
    sample_rate_hertz audio_encoding language_code
  = Ret not_initialized /\
  Tools.detect_intent_from_base64 None audio_base64 session_id
    sample_rate_hertz audio_encoding language_code
  = Ret not_initialized /\
  Tools.match_intent None text session_id language_code
  = Ret not_initialized /\
  Dict.keys not_initialized = ["error"].
Proof. repeat split. Qed.

(* ===================================================================== *)
(** * The client and the initialised tools *)
(* ===================================================================== *)

Local Open Scope itree_scope.

Lemma string_app_inv_head (p a b : string) :
  (p ++ a)%string = (p ++ b)%string -> a = b.
Proof.
  induction p as [|c p IH]; simpl; [auto|].
  intros [= H]. auto.
Qed.

Lemma create_session_path_cases_aux (self : DialogflowCXClient.t) :
  (forall session_id,
     session_id <> EmptyString ->
     DialogflowCXClient.create_session_path self (Some session_id)
     ≅ Ret (session_path_of self session_id))
  /\
  (forall session_id,
     opt_str_falsy session_id = true ->
     DialogflowCXClient.create_session_path self session_id
     ≅ Vis Uuid4 (fun fresh => Ret (session_path_of self fresh))).
Proof.
  unfold DialogflowCXClient.create_session_path, session_path_of. split.
  - intros [|c s] Hne; [congruence|]. cbn [opt_str_falsy opt_str_value].
    now rewrite bind_ret_l.
  - intros session_id ->. rewrite bind_trigger. reflexivity.
Qed.

(** X1. [create_session_path] uses a supplied, non-empty session id as
    it is and asks for no new id; for an absent or empty id it asks for
    exactly one fresh id and uses that.  Two ids give the same path of one
    client only when they are equal. *)
Theorem create_session_path_cases (self : DialogflowCXClient.t) :
  (forall session_id,
     session_id <> EmptyString ->
     DialogflowCXClient.create_session_path self (Some session_id)
     ≅ Ret (session_path_of self session_id))
  /\
  DialogflowCXClient.create_session_path self None
  ≅ Vis Uuid4 (fun fresh => Ret (session_path_of self fresh))
  /\
  DialogflowCXClient.create_session_path self (Some EmptyString)
  ≅ Vis Uuid4 (fun fresh => Ret (session_path_of self fresh))
  /\
  (forall s1 s2,
     session_path_of self s1 = session_path_of self s2 -> s1 = s2).
Proof.
  destruct (create_session_path_cases_aux self) as [Hgiven Hfresh].
  split; [exact Hgiven|]. split; [now apply Hfresh|].
  split; [now apply Hfresh|].
  - unfold session_path_of. intros s1 s2 H. apply string_app_inv_head in H.
    now apply (string_app_inv_head "/sessions/") in H.
Qed.

Lemma create_session_path_cases_witness :
  DialogflowCXClient.create_session_path sample_client (Some "s-42")
  ≅ Ret "projects/proj/locations/us-central1/agents/agent-1/sessions/s-42"%string.
Proof.
  apply (proj1 (create_session_path_cases sample_client) "s-42").
  discriminate.
Defined.

Lemma create_session_path_supplied (self : DialogflowCXClient.t)
  (session_id : string) :
  session_id <> EmptyString ->
  DialogflowCXClient.create_session_path self (Some session_id)
  ≅ Ret (session_path_of self session_id).
Proof.
  intros Hne. apply (proj1 (create_session_path_cases_aux self)).
  exact Hne.
Qed.

Lemma init_without_path (project_id location agent_id : string)
  (credentials_path : option string) :
  opt_str_falsy credentials_path = true ->
  DialogflowCXClient.__init__ project_id location agent_id credentials_path
  ≅ build_client project_id location agent_id None.
Proof.
  intros H. unfold DialogflowCXClient.__init__, build_client. rewrite H.
  rewrite bind_ret_l, bind_trigger. apply eqit_Vis.
  intros [sc|e]; reflexivity.
Qed.

(** X2. [__init__] with no credentials path, or an empty one, asks for
    one sessions client on the default credentials and nothing else.
    With a path it first asks whether the file exists: if not, it goes on
    exactly as with no path; if so, it loads the credentials and asks for
    a sessions client on them, and a failure to load ends the
    construction before any sessions client is asked for. *)
Theorem init_credentials_protocol
  (project_id location agent_id : string) :
  (forall credentials_path,
     opt_str_falsy credentials_path = true ->
     DialogflowCXClient.__init__ project_id location agent_id
       credentials_path
     ≅ build_client project_id location agent_id None)
  /\
  (forall path,
     path <> EmptyString ->
     DialogflowCXClient.__init__ project_id location agent_id (Some path)
     ≅ Vis (PathExists path)
         (fun found =>
            if found : bool then
              Vis (FromServiceAccountFile path)
                  (fun loaded =>
                     match loaded with
                     | Ok credentials =>
                         build_client project_id location agent_id
                           (Some credentials)
                     | Raise e => Ret (Raise e)
                     end)
            else
              DialogflowCXClient.__init__ project_id location agent_id
                None)).
Proof.
  split; [intros cp H; now apply init_without_path|].
  intros [|c path] Hne; [congruence|].
  unfold DialogflowCXClient.__init__ at 1.
  cbn [opt_str_falsy opt_str_value].
  rewrite bind_trigger. apply eqit_Vis. intros [|].
  - unfold build_client.
    rewrite bind_bind, bind_trigger. apply eqit_Vis. intros [cr|e].
    + rewrite bind_trigger. apply eqit_Vis. intros [sc|e]; reflexivity.
    + rewrite bind_ret_l. reflexivity.
  - rewrite (init_without_path project_id location agent_id None eq_refl).
    unfold build_client.
    rewrite bind_trigger. apply eqit_Vis. intros [sc|e]; reflexivity.
Qed.

Lemma init_credentials_protocol_witness :
  DialogflowCXClient.__init__ "proj" "us-central1" "agent-1" (Some EmptyString)
  ≅ build_client "proj" "us-central1" "agent-1" None.
Proof.
  apply (proj1 (init_credentials_protocol "proj" "us-central1" "agent-1")
           (Some EmptyString)).
  reflexivity.
Defined.

Lemma init_returns_client_with
  (project_id location agent_id : string) (credentials_path : option string)
  (client : DialogflowCXClient.t) :
  Leaf (Ok client)
    (DialogflowCXClient.__init__ project_id location agent_id
       credentials_path) ->
  exists sc, client = client_with project_id location agent_id sc.
Proof.
  unfold DialogflowCXClient.__init__. intros H.
  apply Leaf_bind_inv in H. destruct H as (found & _ & H).
  apply Leaf_bind_inv in H. destruct H as ([sc|e] & _ & H);
    apply Leaf_Ret_inv in H; [|discriminate].
  injection H as ->. now exists sc.
Qed.

(** X3. Every client [__init__] returns carries the three identifiers it
    was given and the agent path
    [projects/<project>/locations/<location>/agents/<agent>]. *)
Theorem init_client_fields
  (project_id location agent_id : string) (credentials_path : option string)
  (client : DialogflowCXClient.t) :
  Leaf (Ok client)
    (DialogflowCXClient.__init__ project_id location agent_id
       credentials_path) ->
  DialogflowCXClient.project_id client = project_id /\
  DialogflowCXClient.location client = location /\
  DialogflowCXClient.agent_id client = agent_id /\
  DialogflowCXClient.agent_path client
  = ("projects/" ++ project_id ++ "/locations/" ++ location
     ++ "/agents/" ++ agent_id)%string.
Proof.
  intros H. destruct (@init_returns_client_with _ _ _ _ _ H) as [sc ->].
  repeat split.
Qed.

Lemma init_answers_client :
  Leaf (Ok sample_client)
    (DialogflowCXClient.__init__ "proj" "us-central1" "agent-1" None).
Proof.
  unfold DialogflowCXClient.__init__. cbn [opt_str_falsy].
  apply Leaf_bind with (b := false); [apply Leaf_Ret|].
  apply Leaf_bind with (b := Ok (SessionsHandle 0)); [|apply Leaf_Ret].
  apply Leaf_Vis with (x := Ok (SessionsHandle 0)). apply Leaf_Ret.
Defined.

Lemma init_client_fields_witness :
  DialogflowCXClient.agent_path sample_client
  = "projects/proj/locations/us-central1/agents/agent-1".
Proof.
  apply (@init_client_fields "proj" "us-central1" "agent-1" None
           sample_client init_answers_client).
Defined.

Lemma init_with_path (project_id location agent_id path : string) :
  path <> EmptyString ->
  DialogflowCXClient.__init__ project_id location agent_id (Some path)
  ≅ Vis (PathExists path)
      (fun found =>
         if found : bool then
           Vis (FromServiceAccountFile path)
               (fun loaded =>
                  match loaded with
                  | Ok credentials =>
                      build_client project_id location agent_id
                        (Some credentials)
                  | Raise e => Ret (Raise e)
                  end)
         else build_client project_id location agent_id None).
Proof.
  intros Hne. destruct path as [|c path]; [congruence|].
  unfold DialogflowCXClient.__init__, build_client.
  cbn [opt_str_falsy opt_str_value].
  rewrite bind_trigger. apply eqit_Vis. intros [|].
  - rewrite bind_bind, bind_trigger. apply eqit_Vis. intros [cr|e].
    + rewrite bind_trigger. apply eqit_Vis. intros [sc|e]; reflexivity.
    + rewrite bind_ret_l. reflexivity.
  - rewrite bind_trigger. apply eqit_Vis. intros [sc|e]; reflexivity.
Qed.

Lemma initialize_after_build (handle : ClientHandle)
  (project_id location agent_id : string) (credentials : option Credentials) :
  (created <- build_client project_id location agent_id credentials;;
   match created with
   | Ok client =>
       Ret (Some client,
            ("Dialogflow CX client initialized for agent: "
             ++ agent_id)%string)
   | Raise e =>
       Ret (handle, ("Error initializing Dialogflow CX client: " ++ e)%string)
   end)
  ≅ initialize_with handle project_id location agent_id credentials.
Proof.
  unfold build_client, initialize_with. rewrite bind_vis.
  apply eqit_Vis. intros [sc|e]; rewrite bind_ret_l; reflexivity.
Qed.

(** X22. [initialize_dialogflow] always returns, after at most three
    answers of the environment, and in one of two ways.  With no
    credentials path it asks for one sessions client; with a path it
    first asks whether the file exists and, if so, loads the credentials.
    A sessions client obtained gives a new client for the given project,
    location and agent and the message naming the agent; a failure to
    load the credentials or to obtain the sessions client gives back the
    handle the call was given, so that it neither sets nor clears the
    client, with a message that starts
    [Error initializing Dialogflow CX client: ]. *)
Theorem initialize_dialogflow_protocol (handle : ClientHandle)
  (project_id location agent_id : string) :
  (forall credentials_path,
     opt_str_falsy credentials_path = true ->
     Tools.initialize_dialogflow handle project_id location agent_id
       credentials_path
     ≅ initialize_with handle project_id location agent_id None)
  /\
  (forall path,
     path <> EmptyString ->
     Tools.initialize_dialogflow handle project_id location agent_id
       (Some path)
     ≅ Vis (PathExists path)
         (fun found =>
            if found : bool then
              Vis (FromServiceAccountFile path)
                  (fun loaded =>
                     match loaded with
                     | Ok credentials =>
                         initialize_with handle project_id location agent_id
                           (Some credentials)
                     | Raise e =>
                         Ret (handle,
                              ("Error initializing Dialogflow CX client: "
                               ++ e)%string)
                     end)
            else
              initialize_with handle project_id location agent_id None))
  /\
  (forall credentials,
     initialize_with handle project_id location agent_id credentials
     ≅ Vis (NewSessionsClient credentials)
         (fun answer =>
            Ret (match answer with
                 | Ok sc =>
                     (Some (client_with project_id location agent_id sc),
                      ("Dialogflow CX client initialized for agent: "
                       ++ agent_id)%string)
                 | Raise e =>
                     (handle,
                      ("Error initializing Dialogflow CX client: "
                       ++ e)%string)
                 end))).
Proof.
  split; [|split].
  - intros credentials_path Hfalsy. unfold Tools.initialize_dialogflow.
    rewrite (init_without_path project_id location agent_id
               credentials_path Hfalsy).
    apply initialize_after_build.
  - intros path Hne. unfold Tools.initialize_dialogflow.
    rewrite (init_with_path project_id location agent_id Hne).
    rewrite bind_vis. apply eqit_Vis. intros [|].
    + rewrite bind_vis. apply eqit_Vis. intros [cr|e].
      * apply initialize_after_build.
      * rewrite bind_ret_l. reflexivity.
    + apply initialize_after_build.
  - intros credentials. unfold initialize_with, initialize_outcome.
    apply eqit_Vis. intros [sc|e]; reflexivity.
Qed.

Lemma initialize_dialogflow_protocol_witness :
  Tools.initialize_dialogflow (Some sample_client) "proj" "us-central1"
    "agent-2" None
  ≅ initialize_with (Some sample_client) "proj" "us-central1" "agent-2" None.
Proof.
  apply (proj1 (initialize_dialogflow_protocol (Some sample_client)
                  "proj" "us-central1" "agent-2") None).
  reflexivity.
Defined.

Lemma session_id_appended (response : DetectIntentResponse) (sid : string) :
  Dict.set "session_id" (JStr sid) (_process_response response)
  = _process_response response ++ [("session_id", JStr sid)].
Proof. reflexivity. Qed.

Lemma client_detect_intent_supplied (client : DialogflowCXClient.t)
  (session_id text language_code : string) :
  session_id <> EmptyString ->
  DialogflowCXClient.detect_intent client session_id text language_code
  ≅ Vis (RemoteDetectIntent (DialogflowCXClient.sessions_client client)
           {| dir_session := session_path_of client session_id;
              dir_query_input := text_query text language_code |})
        (fun answer =>
           Ret (match answer with
                | Ok r => Ok (_process_response r)
                | Raise e => Raise e
                end)).
Proof.
  intros Hne. unfold DialogflowCXClient.detect_intent.
  rewrite (create_session_path_supplied client Hne), bind_ret_l.
  rewrite bind_trigger. apply eqit_Vis. intros [r|e]; reflexivity.
Qed.

Lemma client_detect_intent_audio_supplied (client : DialogflowCXClient.t)
  (session_id audio_content : string) (sample_rate_hertz : Z)
  (audio_encoding language_code : string) :
  session_id <> EmptyString ->
  DialogflowCXClient.detect_intent_audio client session_id audio_content
    sample_rate_hertz audio_encoding language_code
  ≅ Vis (AudioEncodingNamed audio_encoding)
        (fun enc =>
           match enc with
           | Raise e => Ret (Raise e)
           | Ok member =>
               if int32_range sample_rate_hertz then
                 Vis (RemoteDetectIntent
                        (DialogflowCXClient.sessions_client client)
                        {| dir_session := session_path_of client session_id;
                           dir_query_input :=
                             audio_query
                               {| audio_encoding := member;
                                  sample_rate_hertz := sample_rate_hertz;
                                  single_utterance := true |}
                               audio_content language_code |})
                     (fun answer =>
                        Ret (match answer with
                             | Ok r => Ok (_process_response r)
                             | Raise e => Raise e
                             end))
               else
                 Ret (Raise ("Value out of range: "
                             ++ NilZero.string_of_int
                                  (Z.to_int sample_rate_hertz))%string)
           end).
Proof.
  intros Hne. unfold DialogflowCXClient.detect_intent_audio.
  rewrite (create_session_path_supplied client Hne), bind_ret_l.
  rewrite bind_trigger. apply eqit_Vis. intros [member|e]; [|reflexivity].
  unfold new_InputAudioConfig.
  destruct (int32_range sample_rate_hertz); [|reflexivity].
  rewrite bind_trigger. apply eqit_Vis. intros [r|e]; reflexivity.
Qed.

(** X4. With a client and a non-empty session id the [detect_intent]
    tool generates no id and makes exactly one backend call, on the
    session path of that id with the given text and language.  A backend
    answer becomes the normalised response with [session_id] appended as a
    seventh field; a backend failure becomes an [error] result carrying
    the failure's message. *)
Theorem detect_intent_tool_protocol (client : DialogflowCXClient.t)
  (text session_id language_code : string) :
  session_id <> EmptyString ->
  Tools.detect_intent (Some client) text (Some session_id) language_code
  ≅ Vis (RemoteDetectIntent (DialogflowCXClient.sessions_client client)
           {| dir_session := session_path_of client session_id;
              dir_query_input := text_query text language_code |})
        (fun answer =>
           Ret (match answer with
                | Ok r =>
                    _process_response r ++ [("session_id", JStr session_id)]
                | Raise e =>
                    [("error", JStr ("Error detecting intent: " ++ e)%string)]
                end)).
Proof.
  intros Hne. unfold Tools.detect_intent.
  destruct session_id as [|c s]; [congruence|].
  cbn [opt_str_falsy opt_str_value]. rewrite bind_ret_l.
  rewrite (client_detect_intent_supplied client text language_code Hne).
  rewrite bind_vis. apply eqit_Vis. intros [r|e]; rewrite bind_ret_l;
    reflexivity.
Qed.

Lemma detect_intent_tool_protocol_witness :
  Tools.detect_intent (Some sample_client) "hello" (Some "s-42") "en-US"
  ≅ Vis (RemoteDetectIntent (SessionsHandle 0)
           {| dir_session :=
                "projects/proj/locations/us-central1/agents/agent-1/sessions/s-42";
              dir_query_input := text_query "hello" "en-US" |})
        (fun answer =>
           Ret (match answer with
                | Ok r => _process_response r ++ [("session_id", JStr "s-42")]
                | Raise e =>
                    [("error", JStr ("Error detecting intent: " ++ e)%string)]
                end)).
Proof.
  apply (@detect_intent_tool_protocol sample_client "hello" "s-42" "en-US").
  discriminate.
Defined.

(** X5. With a client and a non-empty session id the [match_intent] tool
    generates no id and makes exactly one backend matching call on the
    session path of that id.  An answer becomes the list of matches and
    the current page followed by [session_id]; a failure becomes an
    [error] result. *)
Theorem match_intent_tool_protocol (client : DialogflowCXClient.t)
  (text session_id language_code : string) :
  session_id <> EmptyString ->
  Tools.match_intent (Some client) text (Some session_id) language_code
  ≅ Vis (RemoteMatchIntent (DialogflowCXClient.sessions_client client)
           {| mir_session := session_path_of client session_id;
              mir_query_input := text_query text language_code |})
        (fun answer =>
           Ret (match answer with
                | Ok r =>
                    match_intent_result r ++ [("session_id", JStr session_id)]
                | Raise e =>
                    [("error", JStr ("Error matching intent: " ++ e)%string)]
                end)).
Proof.
  intros Hne. unfold Tools.match_intent, DialogflowCXClient.match_intent.
  destruct session_id as [|c s]; [congruence|].
  cbn [opt_str_falsy opt_str_value]. rewrite bind_ret_l.
  rewrite (create_session_path_supplied client Hne), bind_ret_l.
  rewrite bind_bind, bind_trigger. apply eqit_Vis.
  intros [r|e]; rewrite bind_ret_l; reflexivity.
Qed.

Lemma match_intent_tool_protocol_witness :
  Tools.match_intent (Some sample_client) "hello" (Some "s-42") "en-US"
  ≅ Vis (RemoteMatchIntent (SessionsHandle 0)
           {| mir_session :=
                "projects/proj/locations/us-central1/agents/agent-1/sessions/s-42";
              mir_query_input := text_query "hello" "en-US" |})
        (fun answer =>
           Ret (match answer with
                | Ok r => match_intent_result r ++ [("session_id", JStr "s-42")]
                | Raise e =>
                    [("error", JStr ("Error matching intent: " ++ e)%string)]
                end)).
Proof.
  apply (@match_intent_tool_protocol sample_client "hello" "s-42" "en-US").
  discriminate.
Defined.

Lemma audio_exchange_bind (client : DialogflowCXClient.t)
  (prefix session_id : string) (sample_rate_hertz : Z)
  (audio_encoding language_code : string) (content : Res string) :
  session_id <> EmptyString ->
  (response <- match content with
               | Ok bytes =>
                   DialogflowCXClient.detect_intent_audio client session_id
                     bytes sample_rate_hertz audio_encoding language_code
               | Raise e => Ret (Raise e)
               end;;
   match response with
   | Ok response => Ret (Dict.set "session_id" (JStr session_id) response)
   | Raise e => Ret [("error", JStr (prefix ++ e)%string)]
   end)
  ≅ audio_exchange client prefix session_id sample_rate_hertz audio_encoding
      language_code content.
Proof.
  intros Hne. unfold audio_exchange. destruct content as [bytes|e].
  - rewrite (client_detect_intent_audio_supplied client bytes
               sample_rate_hertz audio_encoding language_code Hne).
    rewrite bind_vis. apply eqit_Vis. intros [member|e].
    + destruct (int32_range sample_rate_hertz).
      * rewrite bind_vis. apply eqit_Vis.
        intros [r|e]; rewrite bind_ret_l; reflexivity.
      * rewrite bind_ret_l. reflexivity.
    + rewrite bind_ret_l. reflexivity.
  - rewrite bind_ret_l. reflexivity.
Qed.

(** X6. With a client and a non-empty session id the
    [detect_intent_from_audio] tool reads the file, then looks the
    encoding name up, then, when the sample rate fits an [int32], makes
    one backend call with the bytes read, the sample rate and
    single-utterance mode.  A file that cannot be read, an encoding name
    that is not found, or a sample rate outside the [int32] range ends
    the call with an [error] result and no backend call; a backend answer
    or failure is turned into a result as by the text tool. *)
Theorem detect_intent_from_audio_protocol (client : DialogflowCXClient.t)
  (audio_file_path session_id : string) (sample_rate_hertz : Z)
  (audio_encoding language_code : string) :
  session_id <> EmptyString ->
  Tools.detect_intent_from_audio (Some client) audio_file_path
    (Some session_id) sample_rate_hertz audio_encoding language_code
  ≅ Vis (ReadFile audio_file_path)
        (audio_exchange client "Error detecting intent from audio: "
           session_id sample_rate_hertz audio_encoding language_code).
Proof.
  intros Hne. unfold Tools.detect_intent_from_audio.
  destruct session_id as [|c s]; [congruence|].
  cbn [opt_str_falsy opt_str_value]. rewrite bind_ret_l, bind_trigger.
  apply eqit_Vis. intros content. now apply audio_exchange_bind.
Qed.

Lemma detect_intent_from_audio_protocol_witness :
  Tools.detect_intent_from_audio (Some sample_client) "/tmp/a.wav"
    (Some "s-42") 16000 "AUDIO_ENCODING_LINEAR_16" "en-US"
  ≅ Vis (ReadFile "/tmp/a.wav")
        (audio_exchange sample_client "Error detecting intent from audio: "
           "s-42" 16000 "AUDIO_ENCODING_LINEAR_16" "en-US").
Proof.
  apply (@detect_intent_from_audio_protocol sample_client "/tmp/a.wav" "s-42"
           16000 "AUDIO_ENCODING_LINEAR_16" "en-US").
  discriminate.
Defined.

(** A sample rate of 2^31 does not fit the field: once the encoding is
    found the exchange ends with the error and the backend is not
    asked. *)
Example audio_exchange_sample_rate_out_of_range :
  audio_exchange sample_client "Error detecting intent from audio: " "s-42"
    2147483648 "AUDIO_ENCODING_LINEAR_16" "en-US" (Ok "RIFF")
  = Vis (AudioEncodingNamed "AUDIO_ENCODING_LINEAR_16")
        (fun enc =>
           match enc with
           | Raise e =>
               Ret [("error",
                     JStr ("Error detecting intent from audio: " ++ e)%string)]
           | Ok member =>
               Ret [("error",
                     JStr "Error detecting intent from audio: Value out of range: 2147483648")]
           end).
Proof. reflexivity. Qed.

(** X7. The [detect_intent_from_base64] tool follows the same exchange
    with the base64 decoding in the place of the file read: text that
    does not decode, an encoding name that is not found, or a sample rate
    outside the [int32] range ends the call with an [error] result and no
    backend call. *)
Theorem detect_intent_from_base64_protocol (client : DialogflowCXClient.t)
  (audio_base64 session_id : string) (sample_rate_hertz : Z)
  (audio_encoding language_code : string) :
  session_id <> EmptyString ->
  Tools.detect_intent_from_base64 (Some client) audio_base64
    (Some session_id) sample_rate_hertz audio_encoding language_code
  ≅ Vis (B64Decode audio_base64)
        (audio_exchange client "Error detecting intent from base64 audio: "
           session_id sample_rate_hertz audio_encoding language_code).
Proof.
  intros Hne. unfold Tools.detect_intent_from_base64.
  destruct session_id as [|c s]; [congruence|].
  cbn [opt_str_falsy opt_str_value]. rewrite bind_ret_l, bind_trigger.
  apply eqit_Vis. intros content. now apply audio_exchange_bind.
Qed.

Lemma detect_intent_from_base64_protocol_witness :
  Tools.detect_intent_from_base64 (Some sample_client) "UklGRg=="
    (Some "s-42") 16000 "AUDIO_ENCODING_LINEAR_16" "en-US"
  ≅ Vis (B64Decode "UklGRg==")
        (audio_exchange sample_client
           "Error detecting intent from base64 audio: "
           "s-42" 16000 "AUDIO_ENCODING_LINEAR_16" "en-US").
Proof.
  apply (@detect_intent_from_base64_protocol sample_client "UklGRg==" "s-42"
           16000 "AUDIO_ENCODING_LINEAR_16" "en-US").
  discriminate.
Defined.

(** X8. Called with a client and with an absent or empty session id, each
    of the four tools first asks for one fresh id; when that id is not
    empty the call goes on exactly as if the caller had supplied it, so
    the id returned as [session_id] is the one the backend session was
    opened with. *)
Theorem tools_generate_session_id (client : DialogflowCXClient.t)
  (text audio_file_path audio_base64 : string) (session_id : option string)
  (sample_rate_hertz : Z) (audio_encoding language_code : string) :
  opt_str_falsy session_id = true ->
  (exists k,
     Tools.detect_intent (Some client) text session_id language_code
     ≅ Vis Uuid4 k /\
     forall fresh,
       fresh <> EmptyString ->
       k fresh
       ≅ Tools.detect_intent (Some client) text (Some fresh) language_code)
  /\
  (exists k,
     Tools.match_intent (Some client) text session_id language_code
     ≅ Vis Uuid4 k /\
     forall fresh,
       fresh <> EmptyString ->
       k fresh
       ≅ Tools.match_intent (Some client) text (Some fresh) language_code)
  /\
  (exists k,
     Tools.detect_intent_from_audio (Some client) audio_file_path session_id
       sample_rate_hertz audio_encoding language_code
     ≅ Vis Uuid4 k /\
     forall fresh,
       fresh <> EmptyString ->
       k fresh
       ≅ Tools.detect_intent_from_audio (Some client) audio_file_path
           (Some fresh) sample_rate_hertz audio_encoding language_code)
  /\
  (exists k,
     Tools.detect_intent_from_base64 (Some client) audio_base64 session_id
       sample_rate_hertz audio_encoding language_code
     ≅ Vis Uuid4 k /\
     forall fresh,
       fresh <> EmptyString ->
       k fresh
       ≅ Tools.detect_intent_from_base64 (Some client) audio_base64
           (Some fresh) sample_rate_hertz audio_encoding language_code).
Proof.
  intros Hfalsy.
  unfold Tools.detect_intent, Tools.match_intent,
    Tools.detect_intent_from_audio, Tools.detect_intent_from_base64.
  rewrite Hfalsy.
  repeat match goal with |- _ /\ _ => split end;
    (eexists; split;
     [rewrite bind_trigger; reflexivity
     |intros [|c s] Hne; [congruence|];
      cbn [opt_str_falsy opt_str_value]; rewrite bind_ret_l; reflexivity]).
Qed.

Lemma tools_generate_session_id_witness :
  exists k,
    Tools.detect_intent (Some sample_client) "hello" None "en-US"
    ≅ Vis Uuid4 k /\
    forall fresh,
      fresh <> EmptyString ->
      k fresh
      ≅ Tools.detect_intent (Some sample_client) "hello" (Some fresh) "en-US".
Proof.
  apply (@tools_generate_session_id sample_client "hello" "/tmp/a.wav"
           "UklGRg==" None 16000 "AUDIO_ENCODING_LINEAR_16" "en-US").
  reflexivity.
Defined.

(* ===================================================================== *)
(** * Reading a detection result *)
(* ===================================================================== *)

(** X9. [check_end_interaction] applied to what the detection tools
    return: on a normalised response with its [session_id] it is true
    exactly when the string form of some response message contains
    [end_interaction]; on an [error] result, on a matching result and on
    any dictionary without the field it is false. *)
Theorem check_end_interaction_of_results
  (response : DetectIntentResponse) (session_id : string) :
  (Tools.check_end_interaction
     (_process_response response ++ [("session_id", JStr session_id)])
   = JBool true
   <->
   exists msg,
     In msg (response_messages (query_result response)) /\
     exists pre post, msg_str msg = (pre ++ "end_interaction" ++ post)%string)
  /\
  (Tools.check_end_interaction
     (_process_response response ++ [("session_id", JStr session_id)])
   = JBool true \/
   Tools.check_end_interaction
     (_process_response response ++ [("session_id", JStr session_id)])
   = JBool false)
  /\
  (forall message,
     Tools.check_end_interaction [("error", JStr message)] = JBool false)
  /\
  (forall matched,
     Tools.check_end_interaction
       (match_intent_result matched ++ [("session_id", JStr session_id)])
     = JBool false)
  /\
  (forall result,
     Dict.get "end_interaction" result = None ->
     Tools.check_end_interaction result = JBool false).
Proof.
  unfold Tools.check_end_interaction, _process_response.
  cbn [app Dict.get String.eqb Ascii.eqb Bool.eqb].
  split; [|split; [|split; [|split]]].
  - split.
    + intros [= H]. apply existsb_exists in H.
      destruct H as (msg & Hin & H). exists msg. split; [assumption|].
      now apply str_contains_spec.
    + intros (msg & Hin & H). f_equal. apply existsb_exists.
      exists msg. split; [assumption|]. now apply str_contains_spec.
  - destruct (existsb _ _); [now left | now right].
  - reflexivity.
  - reflexivity.
  - now intros result ->.
Qed.

Lemma check_end_interaction_of_results_witness :
  Tools.check_end_interaction
    (_process_response sample_detect_response ++ [("session_id", JStr "s-42")])
  = JBool true.
Proof.
  apply (proj2 (proj1 (check_end_interaction_of_results
                         sample_detect_response "s-42"))).
  eexists. split; [left; reflexivity|].
  exists EmptyString, " { }". reflexivity.
Defined.

(** X10. The message list of [_process_response] is built message by
    message in order: the entries of two lists put together are the
    entries of the first followed by those of the second, there are never
    more entries than messages, a message whose text and payload both
    test false adds nothing, and one with a payload and no text adds a
    [payload] entry holding the payload. *)
Theorem response_entries_structure (a b : list ResponseMessage) :
  response_entries (a ++ b) = response_entries a ++ response_entries b /\
  length (response_entries a) <= length a /\
  (forall msg,
     msg_text msg = None -> msg_payload msg = None ->
     response_entries (a ++ msg :: b)
     = response_entries a ++ response_entries b) /\
  (forall msg p,
     msg_text msg = None -> msg_payload msg = Some p ->
     response_entries (a ++ msg :: b)
     = response_entries a
       ++ JDict [("type", JStr "payload"); ("content", JDict p)]
       :: response_entries b).
Proof.
  rewrite !response_entries_flat. split; [apply flat_map_app|]. split.
  - induction a as [|msg a IH]; [apply le_n|].
    cbn [flat_map]. rewrite length_app. unfold response_entry at 1.
    destruct (msg_text msg); [simpl; lia|].
    destruct (msg_payload msg); simpl; lia.
  - split; intros msg; [intros Ht Hp | intros p Ht Hp];
      rewrite !response_entries_flat, flat_map_app; cbn [flat_map];
      unfold response_entry at 2; rewrite Ht, Hp; reflexivity.
Qed.

Lemma response_entries_structure_witness :
  response_entries
    ([text_and_payload]
     ++ {| msg_text := None;
           msg_payload := Some [("card", JStr "bye")];
           msg_str := "payload { }" |} :: [])
  = response_entries [text_and_payload]
    ++ JDict [("type", JStr "payload");
              ("content", JDict [("card", JStr "bye")])]
    :: response_entries [].
Proof.
  apply (proj2 (proj2 (proj2 (response_entries_structure
                                [text_and_payload] [])))); reflexivity.
Defined.

(* ===================================================================== *)
(** * More on the webhook response builder *)
(* ===================================================================== *)

(** X11. Unless iterating [messages] fails, the optional fields of the
    input reach the response one for one: [sessionInfo] is present exactly
    when [parameter_updates] is, holding it under [parameters];
    [targetPage] and [targetFlow] are the supplied [target_page] and
    [target_flow], absent when those are; and there is no [error] field. *)
Theorem create_webhook_response_optional_fields (fr : dict) :
  (Dict.get "messages" fr = None \/
   exists v items,
     Dict.get "messages" fr = Some v /\ Tools.py_iter v = Ok items) ->
  Dict.get "sessionInfo" (Tools.create_webhook_response fr)
  = option_map (fun updates => JDict [("parameters", updates)])
      (Dict.get "parameter_updates" fr) /\
  Dict.get "targetPage" (Tools.create_webhook_response fr)
  = Dict.get "target_page" fr /\
  Dict.get "targetFlow" (Tools.create_webhook_response fr)
  = Dict.get "target_flow" fr /\
  Dict.get "error" (Tools.create_webhook_response fr) = None.
Proof.
  intros Hmsgs. rewrite create_webhook_response_unfold.
  assert (Hfields : forall inner,
    let out := with_transitions fr [("fulfillmentResponse", inner)] in
    Dict.get "sessionInfo" out
    = option_map (fun updates => JDict [("parameters", updates)])
        (Dict.get "parameter_updates" fr) /\
    Dict.get "targetPage" out = Dict.get "target_page" fr /\
    Dict.get "targetFlow" out = Dict.get "target_flow" fr /\
    Dict.get "error" out = None).
  { intros inner. unfold with_transitions.
    destruct (Dict.get "parameter_updates" fr),
      (Dict.get "target_page" fr), (Dict.get "target_flow" fr);
      repeat split. }
  destruct Hmsgs as [->|(v & items & -> & ->)]; apply Hfields.
Qed.

Lemma create_webhook_response_optional_fields_witness :
  Dict.get "sessionInfo"
    (Tools.create_webhook_response
       [("parameter_updates", JDict [("size", JStr "large")]);
        ("target_page", JStr "Checkout")])
  = Some (JDict [("parameters", JDict [("size", JStr "large")])]).
Proof.
  apply (@create_webhook_response_optional_fields
           [("parameter_updates", JDict [("size", JStr "large")]);
            ("target_page", JStr "Checkout")]).
  left. reflexivity.
Defined.

(** X12. When [messages] is [None], a boolean or a number, the loop
    cannot start: the whole result is an [error] result naming the type,
    whatever else the input holds. *)
Theorem create_webhook_response_not_iterable (fr : dict) (v : json) :
  Dict.get "messages" fr = Some v ->
  scalar v ->
  Tools.create_webhook_response fr
  = [("error",
      JStr ("Error creating webhook response: '" ++ type_name v
            ++ "' object is not iterable")%string)].
Proof.
  intros Hget Hscalar. rewrite create_webhook_response_unfold, Hget.
  destruct Hscalar as [->|[[b ->]|[[z ->]|[f ->]]]]; reflexivity.
Qed.

Lemma create_webhook_response_not_iterable_witness :
  Tools.create_webhook_response
    [("messages", JNull); ("target_page", JStr "Checkout")]
  = [("error",
      JStr "Error creating webhook response: 'NoneType' object is not iterable")].
Proof.
  apply (@create_webhook_response_not_iterable
           [("messages", JNull); ("target_page", JStr "Checkout")] JNull).
  - reflexivity.
  - left. reflexivity.
Defined.

Lemma flat_map_text_messages (A : Type) (f : A -> string) (l : list A) :
  flat_map descriptor_entries (map (fun x => JStr (f x)) l)
  = map (fun x => JDict [("text", JDict [("text", JList [JStr (f x)])])]) l.
Proof.
  induction l as [|x l IH]; simpl; [reflexivity|]. now rewrite IH.
Qed.

Lemma concat_empty_cons (x : string) (xs : list string) :
  String.concat EmptyString (x :: xs)
  = (x ++ String.concat EmptyString xs)%string.
Proof.
  destruct xs as [|y ys]; simpl; [|reflexivity].
  induction x as [|c x IH]; simpl; [reflexivity | now rewrite <- IH].
Qed.

Lemma chars_after_concat (s : string) :
  (fst (chars_after s)
   ++ String.concat EmptyString (snd (chars_after s)))%string = s.
Proof.
  induction s as [|c s IH]; [reflexivity|]. cbn [chars_after].
  destruct (chars_after s) as [continuation chars]. cbn [fst snd] in IH.
  destruct (is_continuation c); cbn [fst snd].
  - simpl. now rewrite IH.
  - rewrite concat_empty_cons. simpl. now rewrite IH.
Qed.

Lemma str_chars_concat (s : string) :
  String.concat EmptyString (str_chars s) = s.
Proof.
  unfold str_chars. pose proof (chars_after_concat s) as H.
  destruct (chars_after s) as [[|c continuation] chars]; cbn [fst snd] in H.
  - exact H.
  - now rewrite concat_empty_cons.
Qed.

Lemma is_continuation_below_128 (c : ascii) :
  nat_of_ascii c < 128 -> is_continuation c = false.
Proof.
  intros H. unfold is_continuation.
  destruct (Nat.leb_spec 128 (nat_of_ascii c)); [lia | reflexivity].
Qed.

Lemma chars_after_ascii (s : string) :
  ascii_only s ->
  chars_after s
  = (EmptyString,
     map (fun c => String c EmptyString) (list_ascii_of_string s)).
Proof.
  unfold ascii_only. induction s as [|c s IH]; intros H; [reflexivity|].
  cbn [chars_after list_ascii_of_string map].
  rewrite IH by (intros c' Hc'; apply H; now right).
  rewrite is_continuation_below_128 by (apply H; now left).
  reflexivity.
Qed.

Lemma chars_after_pieces (s : string) :
  (forall b, In b (list_ascii_of_string (fst (chars_after s))) ->
             is_continuation b = true) /\
  Forall one_character (snd (chars_after s)).
Proof.
  induction s as [|c s [IHc IHp]]; [split; [intros b []|constructor]|].
  cbn [chars_after]. destruct (chars_after s) as [continuation chars].
  cbn [fst snd] in *. destruct (is_continuation c) eqn:Hc; cbn [fst snd].
  - split; [|exact IHp]. intros b [<-|Hb]; [exact Hc | now apply IHc].
  - split; [intros b []|]. constructor; [|exact IHp].
    exists c, continuation. now repeat split.
Qed.

Lemma str_chars_pieces (s : string) :
  starts_character s -> Forall one_character (str_chars s).
Proof.
  intros Hstart. unfold str_chars.
  pose proof (chars_after_pieces s) as [_ Hpieces].
  destruct s as [|c s]; [constructor|].
  cbn [chars_after] in *. destruct (chars_after s) as [continuation chars].
  cbn [starts_character] in Hstart. rewrite Hstart in *.
  exact Hpieces.
Qed.

(** X13. A [messages] value that is a single string is iterated
    character by character, so each character becomes a text message of
    its own: the messages hold, in order, pieces of the string that put
    together give the string back; each piece is one encoded character,
    a first byte with its continuation bytes, so a character of several
    bytes gives one message; and for a string of ASCII characters there
    are as many messages as the string is long.  A [messages] value that
    is a mapping is iterated by key, so each key becomes a text
    message. *)
Theorem create_webhook_response_string_messages (fr : dict) :
  (forall s,
     Dict.get "messages" fr = Some (JStr s) ->
     fulfillment_messages (Tools.create_webhook_response fr)
     = Some (JList (map (fun c =>
                           JDict [("text", JDict [("text", JList [JStr c])])])
                        (str_chars s))) /\
     String.concat EmptyString (str_chars s) = s /\
     (starts_character s -> Forall one_character (str_chars s)) /\
     (ascii_only s ->
      str_chars s
      = map (fun c => String c EmptyString) (list_ascii_of_string s) /\
      length (str_chars s) = String.length s)) /\
  (forall d,
     Dict.get "messages" fr = Some (JDict d) ->
     fulfillment_messages (Tools.create_webhook_response fr)
     = Some (JList (map (fun k =>
                           JDict [("text", JDict [("text", JList [JStr k])])])
                        (Dict.keys d)))) /\
  str_chars one_wide_character = [one_wide_character].
Proof.
  unfold fulfillment_messages. split; [|split].
  - intros s Hget. split; [|split; [|split]].
    + rewrite create_webhook_response_unfold, Hget. cbn [Tools.py_iter].
      rewrite with_transitions_fulfillment.
      cbn [Dict.get String.eqb Ascii.eqb Bool.eqb].
      now rewrite (flat_map_text_messages (fun c : string => c)).
    + apply str_chars_concat.
    + apply str_chars_pieces.
    + intros Hascii. unfold str_chars.
      rewrite (chars_after_ascii Hascii). split; [reflexivity|].
      rewrite length_map. clear. induction s as [|c s IH]; simpl;
        [reflexivity | now rewrite IH].
  - intros d Hget.
    rewrite create_webhook_response_unfold, Hget. cbn [Tools.py_iter].
    rewrite with_transitions_fulfillment.
    cbn [Dict.get String.eqb Ascii.eqb Bool.eqb].
    now rewrite (flat_map_text_messages (fun k : string => k)).
  - reflexivity.
Qed.

Lemma create_webhook_response_string_messages_witness :
  fulfillment_messages
    (Tools.create_webhook_response
       [("messages", JStr (one_wide_character ++ "hi"))])
  = Some (JList
            [JDict [("text", JDict [("text", JList [JStr one_wide_character])])];
             JDict [("text", JDict [("text", JList [JStr "h"])])];
             JDict [("text", JDict [("text", JList [JStr "i"])])]]).
Proof.
  apply (proj1 (create_webhook_response_string_messages
                  [("messages", JStr (one_wide_character ++ "hi"))])
           (one_wide_character ++ "hi")%string).
  reflexivity.
Defined.

(** X14. The emitted messages follow the descriptors in order: the
    messages of two lists put together are those of the first followed by
    those of the second, and there are never more messages than
    descriptors.  A mapping with a [payload] and no [text] is emitted as
    [{"payload": payload}] with the payload untouched; a mapping with
    neither field, and any value that is neither a string nor a mapping,
    is dropped. *)
Theorem emitted_messages_structure (a b : list json) :
  emitted_messages (a ++ b) = emitted_messages a ++ emitted_messages b /\
  length (emitted_messages a) <= length a /\
  (forall m p,
     Dict.get "text" m = None -> Dict.get "payload" m = Some p ->
     emitted_messages [JDict m] = [JDict [("payload", p)]]) /\
  (forall m,
     Dict.get "text" m = None -> Dict.get "payload" m = None ->
     emitted_messages [JDict m] = []) /\
  (forall v,
     (forall s, v <> JStr s) -> (forall m, v <> JDict m) ->
     emitted_messages [v] = []).
Proof.
  rewrite !emitted_messages_flat. split; [apply flat_map_app|]. split.
  - induction a as [|msg a IH]; [apply le_n|].
    cbn [flat_map]. rewrite length_app.
    assert (length (descriptor_entries msg) <= 1).
    { unfold descriptor_entries. destruct msg as [| | | | s | |m]; simpl;
        try lia.
      destruct (Dict.get "text" m); [simpl; lia|].
      destruct (Dict.get "payload" m); simpl; lia. }
    simpl. lia.
  - repeat split.
    + intros m p Ht Hp. rewrite emitted_messages_flat. simpl.
      now rewrite Ht, Hp.
    + intros m Ht Hp. rewrite emitted_messages_flat. simpl.
      now rewrite Ht, Hp.
    + intros v Hs Hm. rewrite emitted_messages_flat.
      destruct v; try reflexivity; [now elim (Hs s) | now elim (Hm d)].
Qed.

Lemma emitted_messages_structure_witness :
  emitted_messages
    [JDict [("payload", JDict [("card", JStr "welcome")]);
            ("note", JInt 3)]]
  = [JDict [("payload", JDict [("card", JStr "welcome")])]].
Proof.
  apply (proj1 (proj2 (proj2 (emitted_messages_structure [] []))));
    reflexivity.
Defined.

(** X15. Every message the response builder emits is read by the message
    loop of the request parser without an exception: a text message
    [{"text": {"text": [v]}}] is entered with content [[v]] and a payload
    message with its payload, one entry for each message in order. *)
Theorem built_messages_are_readable (descriptors : list json) :
  exists entries,
    Tools.request_entries (emitted_messages descriptors) = Ok entries /\
    Forall2 read_back (emitted_messages descriptors) entries.
Proof.
  rewrite emitted_messages_flat.
  induction descriptors as [|msg descriptors (entries & Hrest & Hall)].
  - exists []. split; [reflexivity | constructor].
  - cbn [flat_map].
    assert (Hone : descriptor_entries msg = [] \/
                   exists built entry,
                     descriptor_entries msg = [built] /\
                     request_entry built = Ok [entry] /\
                     read_back built entry).
    { unfold descriptor_entries, read_back.
      destruct msg as [| | | | s | |m]; try (now left).
      - right. do 2 eexists. split; [reflexivity|]. split; [reflexivity|].
        left. eauto.
      - destruct (Dict.get "text" m) as [v|].
        + right. do 2 eexists. split; [reflexivity|].
          split; [reflexivity|]. left. eauto.
        + destruct (Dict.get "payload" m) as [p|]; [|now left].
          right. do 2 eexists. split; [reflexivity|].
          split; [reflexivity|]. right. eauto. }
    destruct Hone as [->|(built & entry & -> & Hentry & Hback)].
    + exists entries. now split.
    + exists (entry :: entries). split.
      * simpl. now rewrite request_entries_cons, Hentry, Hrest.
      * now constructor.
Qed.

(* ===================================================================== *)
(** * More on the webhook request parser *)
(* ===================================================================== *)

Lemma py_get_not_dict (v : json) (key : string) (default : json) :
  (forall d, v <> JDict d) ->
  Tools.py_get v key default
  = Raise ("'" ++ type_name v ++ "' object has no attribute 'get'")%string.
Proof. intros H. destruct v; try reflexivity. now elim (H d). Qed.

(** X16. A text that is valid JSON but not an object (a list, a string,
    a number, a boolean or [null]) is answered with an [error] result
    that names the type of the value. *)
Theorem parse_webhook_request_not_object
  (json_loads : string -> Res json) (request_json : string) (v : json) :
  json_loads request_json = Ok v ->
  (forall d, v <> JDict d) ->
  Tools.parse_webhook_request json_loads request_json
  = [("error",
      JStr ("Error parsing webhook request: '" ++ type_name v
            ++ "' object has no attribute 'get'")%string)].
Proof.
  intros Hload Hv. unfold Tools.parse_webhook_request.
  rewrite Hload. cbn [bind]. now rewrite py_get_not_dict.
Qed.

Lemma parse_webhook_request_not_object_witness :
  Tools.parse_webhook_request (loads_from sample_documents) "5"
  = [("error",
      JStr "Error parsing webhook request: 'int' object has no attribute 'get'")].
Proof.
  apply (@parse_webhook_request_not_object (loads_from sample_documents)
           "5" (JInt 5)).
  - reflexivity.
  - discriminate.
Defined.

(** X17. A result that has a [raw_request] is a success: its
    [raw_request] is exactly the document [json.loads] returned, that
    document is an object, and the result has the six parsed fields and no
    [error]. *)
Theorem parse_webhook_request_raw_request
  (json_loads : string -> Res json) (request_json : string) (v : json) :
  Dict.get "raw_request"
    (Tools.parse_webhook_request json_loads request_json) = Some v ->
  json_loads request_json = Ok v /\
  (exists d, v = JDict d) /\
  Dict.keys (Tools.parse_webhook_request json_loads request_json)
  = parsed_fields /\
  Dict.get "error" (Tools.parse_webhook_request json_loads request_json)
  = None.
Proof.
  unfold Tools.parse_webhook_request.
  destruct (json_loads request_json) as [doc|e]; cbn [bind]; [|discriminate].
  destruct doc as [| | | | | |d]; try discriminate.
  repeat match goal with
         | |- context [bind ?m _] =>
             destruct m; cbn [bind]; [|discriminate]
         end.
  intros [= <-]. repeat split. now exists d.
Qed.

Lemma parse_webhook_request_raw_request_witness :
  loads_from sample_documents session_document
  = Ok (JDict [("sessionInfo", JDict [("session", JStr "s1")])]).
Proof.
  apply (@parse_webhook_request_raw_request (loads_from sample_documents)
           session_document
           (JDict [("sessionInfo", JDict [("session", JStr "s1")])])).
  reflexivity.
Defined.

(** X18. A [sessionInfo], [intentInfo] or [pageInfo] that is present but
    is not an object is not replaced by a default: the result is an
    [error] result. *)
Theorem parse_webhook_request_field_not_object
  (json_loads : string -> Res json) (request_json : string)
  (d : dict) (key : string) (v : json) :
  json_loads request_json = Ok (JDict d) ->
  In key ["sessionInfo"; "intentInfo"; "pageInfo"] ->
  Dict.get key d = Some v ->
  (forall o, v <> JDict o) ->
  exists message,
    Tools.parse_webhook_request json_loads request_json
    = [("error", JStr message)].
Proof.
  intros Hload Hkey Hget Hv. unfold Tools.parse_webhook_request.
  rewrite Hload. cbn [bind]. rewrite !py_get_dict. cbn [bind].
  assert (Hfield : get_default key d (JDict []) = v)
    by (unfold get_default; now rewrite Hget).
  destruct Hkey as [<-|[<-|[<-|[]]]]; rewrite Hfield.
  - rewrite py_get_not_dict by assumption. cbn [bind]. eauto.
  - rewrite (@py_get_not_dict v "displayName" (JStr EmptyString) Hv).
    repeat match goal with
           | |- context [bind (Tools.py_get ?x ?k ?def) _] =>
               destruct (Tools.py_get x k def); cbn [bind];
               [|eexists; reflexivity]
           | |- context [bind (Tools.py_iter ?x) _] =>
               destruct (Tools.py_iter x); cbn [bind];
               [|eexists; reflexivity]
           | |- context [bind (Tools.request_entries ?x) _] =>
               destruct (Tools.request_entries x); cbn [bind];
               [|eexists; reflexivity]
           end.
    eexists; reflexivity.
  - destruct (Tools.py_get (get_default "sessionInfo" d (JDict []))
                "parameters" (JDict [])); cbn [bind];
      [|eexists; reflexivity].
    rewrite py_get_not_dict by assumption. cbn [bind]. eauto.
Qed.

Lemma parse_webhook_request_field_not_object_witness :
  exists message,
    Tools.parse_webhook_request (loads_from sample_documents)
      (json_object_text "sessionInfo" "5")
    = [("error", JStr message)].
Proof.
  apply (@parse_webhook_request_field_not_object
           (loads_from sample_documents) (json_object_text "sessionInfo" "5")
           [("sessionInfo", JInt 5)] "sessionInfo" (JInt 5)).
  - reflexivity.
  - left. reflexivity.
  - reflexivity.
  - discriminate.
Defined.

(** X19. A document that is an object with none of [sessionInfo],
    [intentInfo], [pageInfo] and [messages] parses to the defaults: empty
    session id, intent name and current page, no parameters, no messages,
    and the document itself as [raw_request]. *)
Theorem parse_webhook_request_defaults
  (json_loads : string -> Res json) (request_json : string) (d : dict) :
  json_loads request_json = Ok (JDict d) ->
  (forall key,
     In key ["sessionInfo"; "intentInfo"; "pageInfo"; "messages"] ->
     Dict.get key d = None) ->
  Tools.parse_webhook_request json_loads request_json
  = [("session_id", JStr EmptyString);
     ("intent_name", JStr EmptyString);
     ("parameters", JDict []);
     ("current_page", JStr EmptyString);
     ("messages", JList []);
     ("raw_request", JDict d)].
Proof.
  intros Hload Habsent.
  assert (Hdefault : forall key default,
            In key ["sessionInfo"; "intentInfo"; "pageInfo"; "messages"] ->
            get_default key d default = default).
  { intros key default Hkey. unfold get_default.
    now rewrite (Habsent key Hkey). }
  apply (@parse_webhook_request_object json_loads request_json d
           [] [] [] [] []); try assumption;
    try (apply Hdefault; simpl; tauto).
  reflexivity.
Qed.

Lemma parse_webhook_request_defaults_witness :
  Tools.parse_webhook_request (loads_from sample_documents) "{}"
  = [("session_id", JStr EmptyString);
     ("intent_name", JStr EmptyString);
     ("parameters", JDict []);
     ("current_page", JStr EmptyString);
     ("messages", JList []);
     ("raw_request", JDict [])].
Proof.
  apply (@parse_webhook_request_defaults (loads_from sample_documents)
           "{}" []).
  - reflexivity.
  - reflexivity.
Defined.

Lemma request_entry_scalar (v : json) :
  scalar v -> exists e, request_entry v = Raise e.
Proof.
  intros [->|[[b ->]|[[z ->]|[f ->]]]]; eexists; reflexivity.
Qed.

Lemma request_entries_scalar (msgs : list json) (v : json) :
  In v msgs -> scalar v -> exists e, Tools.request_entries msgs = Raise e.
Proof.
  intros Hin Hscalar. induction msgs as [|msg msgs IH]; [contradiction|].
  rewrite request_entries_cons. destruct Hin as [->|Hin].
  - destruct (request_entry_scalar Hscalar) as [e ->]. eauto.
  - destruct (IH Hin) as [e ->].
    destruct (request_entry msg); eauto.
Qed.

(** X20. A [messages] list that holds [null], a boolean or a number
    anywhere makes the whole request an [error] result: such an entry is
    not skipped. *)
Theorem parse_webhook_request_scalar_message
  (json_loads : string -> Res json) (request_json : string)
  (d : dict) (msgs : list json) (v : json) :
  json_loads request_json = Ok (JDict d) ->
  Dict.get "messages" d = Some (JList msgs) ->
  In v msgs ->
  scalar v ->
  exists message,
    Tools.parse_webhook_request json_loads request_json
    = [("error", JStr message)].
Proof.
  intros Hload Hget Hin Hscalar.
  destruct (request_entries_scalar msgs Hin Hscalar) as [e He].
  unfold Tools.parse_webhook_request. rewrite Hload. cbn [bind].
  rewrite !py_get_dict. cbn [bind].
  assert (Hmsgs : get_default "messages" d (JList []) = JList msgs)
    by (unfold get_default; now rewrite Hget).
  rewrite Hmsgs.
  destruct (Tools.py_get (get_default "sessionInfo" d (JDict []))
              "parameters" (JDict [])); cbn [bind]; [|eexists; reflexivity].
  destruct (Tools.py_get (get_default "pageInfo" d (JDict []))
              "displayName" (JStr EmptyString)); cbn [bind];
    [|eexists; reflexivity].
  cbn [Tools.py_iter bind]. rewrite He. cbn [bind]. eauto.
Qed.

Lemma parse_webhook_request_scalar_message_witness :
  exists message,
    Tools.parse_webhook_request
      (loads_from [("m", JDict [("messages", JList [JDict []; JInt 1])])]) "m"
    = [("error", JStr message)].
Proof.
  apply (@parse_webhook_request_scalar_message
           (loads_from [("m", JDict [("messages", JList [JDict []; JInt 1])])])
           "m" [("messages", JList [JDict []; JInt 1])]
           [JDict []; JInt 1] (JInt 1)).
  - reflexivity.
  - reflexivity.
  - right. left. reflexivity.
  - right. right. left. now exists 1%Z.
Defined.

(** X21. In the message loop of the parser a message object with a
    [payload] and no [text] is entered as a [payload] entry with the
    payload untouched, and a message object with neither field is
    skipped; the entries of two readable lists put together are the
    entries of the first followed by those of the second. *)
Theorem request_entries_structure :
  (forall m p,
     Dict.get "text" m = None -> Dict.get "payload" m = Some p ->
     Tools.request_entries [JDict m]
     = Ok [JDict [("type", JStr "payload"); ("content", p)]]) /\
  (forall m,
     Dict.get "text" m = None -> Dict.get "payload" m = None ->
     Tools.request_entries [JDict m] = Ok []) /\
  (forall pre post a b,
     Tools.request_entries pre = Ok a ->
     Tools.request_entries post = Ok b ->
     Tools.request_entries (pre ++ post) = Ok (a ++ b)) /\
  (forall msgs entries,
     Tools.request_entries msgs = Ok entries ->
     length entries <= length msgs).
Proof.
  split; [|split; [|split]].
  - intros m p Ht Hp. rewrite request_entries_cons. unfold request_entry.
    cbn [Tools.py_in bind]. unfold Dict.mem. rewrite Ht. cbn [bind Tools.py_in].
    unfold Dict.mem. rewrite Hp. cbn [bind Tools.py_getitem]. now rewrite Hp.
  - intros m Ht Hp. rewrite request_entries_cons. unfold request_entry.
    cbn [Tools.py_in bind]. unfold Dict.mem. rewrite Ht. cbn [bind Tools.py_in].
    unfold Dict.mem. now rewrite Hp.
  - intros pre post a b. apply request_entries_app.
  - induction msgs as [|msg msgs IH]; intros entries.
    + intros [= <-]. apply le_n.
    + rewrite request_entries_cons.
      destruct (request_entry msg) as [added|e] eqn:Hentry; [|discriminate].
      destruct (Tools.request_entries msgs) as [rest|e]; [|discriminate].
      intros [= <-]. rewrite length_app. specialize (IH rest eq_refl).
      assert (length added <= 1).
      { unfold request_entry in Hentry.
        destruct (Tools.py_in "text" msg) as [[|]|]; cbn [bind] in Hentry;
          [| |discriminate].
        - destruct (Tools.py_getitem msg "text") as [t|]; cbn [bind] in Hentry;
            [|discriminate].
          destruct (Tools.py_getitem t "text"); cbn [bind] in Hentry;
            [|discriminate].
          injection Hentry as <-. simpl. lia.
        - destruct (Tools.py_in "payload" msg) as [[|]|]; cbn [bind] in Hentry;
            [| |discriminate].
          + destruct (Tools.py_getitem msg "payload"); cbn [bind] in Hentry;
              [|discriminate].
            injection Hentry as <-. simpl. lia.
          + injection Hentry as <-. simpl. lia. }
      simpl. lia.
Qed.

Lemma request_entries_structure_witness :
  Tools.request_entries [JDict [("payload", JInt 7); ("note", JNull)]]
  = Ok [JDict [("type", JStr "payload"); ("content", JInt 7)]].
Proof.
  apply (proj1 request_entries_structure); reflexivity.
Defined.
